(** * KingDB: the database handle (interface/kingdb.cc)

    A shallow embedding of [KingDB::Get], [Put], [PutChunk],
    [PutChunkValidSize], [Delete], [NewSnapshot] and [NewIterator].

    - [uint64_t] values are integers in [Z]; every arithmetic operation of
      the source is followed by [wrap64], its reduction modulo 2^64.
    - The thread-local storages ([ts_compression_enabled_], [ts_offset_],
      the compressor's running size, the CRC32 stream) are finite maps from
      the writer's thread id to the stored value.
    - The write buffer [wb_] and the storage engine [se_] are collaborators
      whose code lives elsewhere: they are operations on an abstract
      [World], and every call made to them is appended to a call history.
    - A call through a null pointer and a read through a pointer to a
      deleted object are outcomes of their own ([Outcome]), with the handle
      as the call had left it by then; no later step of the call is taken. *)

From Stdlib Require Import ZArith List String Bool Lia.
From Stdlib Require Import Strings.Byte.
From stdpp Require Import base option list gmap.
Import ListNotations.

#[local] Open Scope Z_scope.

(** ** Unsigned 64-bit arithmetic *)

Definition wrap64 (x : Z) : Z := x mod 2 ^ 64.

Definition u64_add (a b : Z) : Z := wrap64 (a + b).
Definition u64_sub (a b : Z) : Z := wrap64 (a - b).
Definition u64_neg (a : Z) : Z := wrap64 (- a).

(** ** Status *)

(** Modelled from the spec: the [Status] class, which status.h declares; it
    is a tagged result carrying one of OK, NotFound, DeleteOrder, IOError,
    InvalidArgument plus a message. *)
Inductive StatusCode : Type :=
  | kOK | kNotFound | kDeleteOrder | kInvalidArgument | kIOError.

Record Status : Type := mkStatus { code : StatusCode; message : string }.

Module StatusOps.
Definition OK : Status := mkStatus kOK "".
Definition NotFound (msg : string) : Status := mkStatus kNotFound msg.
Definition DeleteOrder (msg : string) : Status := mkStatus kDeleteOrder msg.
Definition InvalidArgument (msg : string) : Status := mkStatus kInvalidArgument msg.
Definition IOError (msg : string) : Status := mkStatus kIOError msg.

Definition IsOK (s : Status) : bool :=
  match code s with kOK => true | _ => false end.
Definition IsNotFound (s : Status) : bool :=
  match code s with kNotFound => true | _ => false end.
Definition IsDeleteOrder (s : Status) : bool :=
  match code s with kDeleteOrder => true | _ => false end.
End StatusOps.
Import StatusOps.

(** ** ByteArray *)

(** Modelled from the spec: the [ByteArray] classes, which another header
    declares; a byte array is a sized byte region with an adjustable logical
    start offset, [data()] points [offset] bytes into the region and
    [size()] is the length left from there.  A simple byte array is a
    non-owning window, a shared allocated one owns a heap buffer. *)
Inductive Ownership : Type :=
  | CallerBuffer          (* whatever array type the caller handed in *)
  | SimpleWindow          (* SimpleByteArray: borrowed, non-owning *)
  | SharedAllocated.      (* SharedAllocatedByteArray: owns its bytes *)

Record ByteArray : Type := mkByteArray {
  data_ : list byte;      (* memory reachable from the base pointer *)
  size_ : Z;
  offset_ : Z;
  ownership : Ownership
}.

Module ByteArrayOps.
Definition data (b : ByteArray) : list byte :=
  drop (Z.to_nat (offset_ b)) (data_ b).
Definition size (b : ByteArray) : Z := u64_sub (size_ b) (offset_ b).
Definition set_offset (off : Z) (b : ByteArray) : ByteArray :=
  mkByteArray (data_ b) (size_ b) off (ownership b).
(** the [size()] bytes found at [data()] *)
Definition bytes (b : ByteArray) : list byte :=
  take (Z.to_nat (size b)) (data b).

Definition SimpleByteArray (p : list byte) (n : Z) : ByteArray :=
  mkByteArray p n 0 SimpleWindow.
Definition SharedAllocatedByteArray (p : list byte) (n : Z) : ByteArray :=
  mkByteArray p n 0 SharedAllocated.
End ByteArrayOps.
Import ByteArrayOps.

(** ** Options *)

Inductive CompressionType : Type := kNoCompression | kLZ4Compression.

Record DatabaseOptions : Type := mkDatabaseOptions {
  storage__maximum_chunk_size : Z;
  compression_type : CompressionType
}.

Definition is_kNoCompression (t : CompressionType) : bool :=
  match t with kNoCompression => true | kLZ4Compression => false end.

(** ** Thread-local storage *)

(** Modelled from the spec: the [ThreadStorage] class, which another header
    declares; it keeps one [uint64_t] per writer thread, zero until that
    thread first stores a value. *)
Module ThreadStorage.
Definition get (tid : nat) (ts : gmap nat Z) : Z := default 0 (ts !! tid).
Definition put (tid : nat) (v : Z) (ts : gmap nat Z) : gmap nat Z :=
  <[tid := v]> ts.
End ThreadStorage.

(** ** Snapshots and iterators *)

(** What the constructor of a read-only [StorageEngine] is given. *)
Record EngineView : Type := mkEngineView {
  view_options : DatabaseOptions;
  view_dbname : string;
  view_readonly : bool;
  view_fileids_ignore : gset Z;
  view_fileid_end : Z
}.

(** A reference to a storage engine: the live one ([se_]) or a view. *)
Inductive EngineRef : Type :=
  | LiveEngine
  | ViewEngine (v : EngineView).

Record Snapshot : Type := mkSnapshot {
  snap_options : DatabaseOptions;
  snap_dbname : string;
  snap_se_live : EngineRef;
  snap_se_readonly : EngineRef;
  snap_fileids_iterator : list Z;
  snap_snapshot_id : Z
}.

Record BasicIterator (ReadOptions : Type) : Type := mkBasicIterator {
  it_read_options : ReadOptions;
  it_snapshot : Snapshot;
  it_parent_snapshot : option Snapshot
}.
Arguments mkBasicIterator {ReadOptions}.
Arguments it_read_options {ReadOptions}.
Arguments it_snapshot {ReadOptions}.
Arguments it_parent_snapshot {ReadOptions}.

(** Result of a function that may run into undefined behaviour: a call
    through a null pointer, or a read through a pointer to a deleted
    object. *)
Inductive Outcome (A : Type) : Type :=
  | Returns (a : A)
  | NullDereference
  | UseAfterFree.
Arguments Returns {A}.
Arguments NullDereference {A}.
Arguments UseAfterFree {A}.

(** ** Collaborators *)

(** The calls the database handle makes to its collaborators, in the order
    they are made. *)
Inductive Call : Type :=
  | CallWbGet (key : ByteArray)
  | CallSeGet (key : ByteArray)
  | CallSeFileSystemStatus
  | CallWbPutChunk (key chunk : ByteArray)
      (offset_chunk size_value size_value_compressed crc32 : Z)
  | CallWbDelete (key : ByteArray)
  | CallWbFlush
  | CallSeFlushCurrentFileForSnapshot
  | CallSeGetNewSnapshotData
  | CallNewStorageEngine (v : EngineView)
  | CallSeGetFileidsIterator (v : EngineView).

(** The write buffer [wb_].  [Get] yields what it stored through
    [value_out], if anything. *)
Class WriteBuffer (World ReadOptions WriteOptions : Type) : Type := {
  wb_Get : ReadOptions → ByteArray → World → World * Status * option ByteArray;
  wb_PutChunk : WriteOptions → ByteArray → ByteArray → Z → Z → Z → Z →
                World → World * Status;
  wb_Delete : WriteOptions → ByteArray → World → World * Status;
  wb_Flush : World → World
}.

(** The storage engine [se_], the constructor of a read-only engine and
    [EntryHeader::CalculatePaddingSize]. *)
Class StorageEngine (World ReadOptions : Type) : Type := {
  se_Get : ReadOptions → ByteArray → World → World * Status * option ByteArray;
  se_FileSystemStatus : World → World * Status;
  se_FlushCurrentFileForSnapshot : World → World * Z;
  se_GetNewSnapshotData : World → World * Status * (Z * gset Z);
  se_new : EngineView → World → World;
  se_GetFileidsIterator : EngineView → World → World * list Z;
  CalculatePaddingSize : Z → Z
}.

(** The codec behind [compressor_] and the checksum behind [crc32_]. *)
Class Codec : Type := {
  lz_frame : list byte → Status * list byte;
  size_frame_header : Z;
  DisableCompressionInFrameHeader : list byte → list byte;
  crc32_of : list byte → Z
}.

(** Modelled from the spec: the class of [compressor_], which another
    header declares.  Its per-writer state is the number of bytes emitted
    across frames since the last reset; [Compress] produces one frame for
    the source bytes and adds its length to that count;
    [AdjustCompressedSize] applies a correction to the count; a frame that
    stores [n] bytes verbatim takes [size_frame_header() + n] bytes. *)
Module Compressor.
Section Ops.
Context `{!Codec}.

Definition ResetThreadLocalStorage (tid : nat) (c : gmap nat Z) : gmap nat Z :=
  ThreadStorage.put tid 0 c.

Definition size_compressed (tid : nat) (c : gmap nat Z) : Z :=
  ThreadStorage.get tid c.

Definition Compress (tid : nat) (source : list byte) (c : gmap nat Z)
  : gmap nat Z * Status * list byte * Z :=
  let '(s, dest) := lz_frame source in
  let size_dest := wrap64 (Z.of_nat (length dest)) in
  (ThreadStorage.put tid (u64_add (ThreadStorage.get tid c) size_dest) c,
   s, dest, size_dest).

Definition size_uncompressed_frame (n : Z) : Z := u64_add n size_frame_header.

Definition AdjustCompressedSize (tid : nat) (inc : Z) (c : gmap nat Z) : gmap nat Z :=
  ThreadStorage.put tid (u64_add (ThreadStorage.get tid c) inc) c.
End Ops.
End Compressor.

(** Modelled from the spec: the class of [crc32_], which another header
    declares.  Its per-writer state is the bytes streamed since the last
    reset; [get] is the checksum of those bytes. *)
Module CRC32.
Section Ops.
Context `{!Codec}.

Definition ResetThreadLocalStorage (tid : nat) (c : gmap nat (list byte))
  : gmap nat (list byte) := <[tid := []]> c.

Definition streamed (tid : nat) (c : gmap nat (list byte)) : list byte :=
  default [] (c !! tid).

Definition stream (tid : nat) (bs : list byte) (c : gmap nat (list byte))
  : gmap nat (list byte) := <[tid := streamed tid c ++ bs]> c.

Definition get (tid : nat) (c : gmap nat (list byte)) : Z :=
  crc32_of (streamed tid c).
End Ops.
End CRC32.

(** [memcpy(dst + at, src, length src)] *)
Definition memcpy_at (dst : list byte) (pos : Z) (src : list byte) : list byte :=
  take (Z.to_nat pos) dst ++ src
    ++ drop (Z.to_nat pos + length src)%nat dst.

(** ** The database handle *)

Section Handle.
Context {World ReadOptions WriteOptions : Type}.
Context `{!WriteBuffer World ReadOptions WriteOptions}.
Context `{!StorageEngine World ReadOptions}.
Context `{!Codec}.

Record KingDB : Type := mkKingDB {
  is_closed_ : bool;
  db_options_ : DatabaseOptions;
  dbname_ : string;
  ts_compression_enabled_ : gmap nat Z;
  ts_offset_ : gmap nat Z;
  compressor_ : gmap nat Z;         (* bytes emitted since the last reset *)
  crc32_ : gmap nat (list byte);    (* bytes streamed since the last reset *)
  world : World;
  calls : list Call
}.

Definition with_ts_compression_enabled (f : gmap nat Z → gmap nat Z) (db : KingDB) : KingDB :=
  mkKingDB (is_closed_ db) (db_options_ db) (dbname_ db)
    (f (ts_compression_enabled_ db)) (ts_offset_ db) (compressor_ db)
    (crc32_ db) (world db) (calls db).

Definition with_ts_offset (f : gmap nat Z → gmap nat Z) (db : KingDB) : KingDB :=
  mkKingDB (is_closed_ db) (db_options_ db) (dbname_ db)
    (ts_compression_enabled_ db) (f (ts_offset_ db)) (compressor_ db)
    (crc32_ db) (world db) (calls db).

Definition with_compressor (f : gmap nat Z → gmap nat Z) (db : KingDB) : KingDB :=
  mkKingDB (is_closed_ db) (db_options_ db) (dbname_ db)
    (ts_compression_enabled_ db) (ts_offset_ db) (f (compressor_ db))
    (crc32_ db) (world db) (calls db).

Definition with_crc32 (f : gmap nat (list byte) → gmap nat (list byte)) (db : KingDB) : KingDB :=
  mkKingDB (is_closed_ db) (db_options_ db) (dbname_ db)
    (ts_compression_enabled_ db) (ts_offset_ db) (compressor_ db)
    (f (crc32_ db)) (world db) (calls db).

(** A collaborator was called: the world moves on, the call is recorded. *)
Definition called (c : Call) (w : World) (db : KingDB) : KingDB :=
  mkKingDB (is_closed_ db) (db_options_ db) (dbname_ db)
    (ts_compression_enabled_ db) (ts_offset_ db) (compressor_ db)
    (crc32_ db) w (calls db ++ [c]).

(** [*value_out = v] when the callee stored something *)
Definition store_out (stored old : option ByteArray) : option ByteArray :=
  match stored with Some v => Some v | None => old end.

(** *** Get *)

Definition Get (read_options : ReadOptions) (key : ByteArray)
    (value_out : option ByteArray) (db : KingDB)
  : KingDB * Status * option ByteArray :=
  if is_closed_ db then (db, IOError "The database is not open", value_out) else
  let '(w, s, v) := wb_Get read_options key (world db) in
  let db := called (CallWbGet key) w db in
  let value_out := store_out v value_out in
  if IsDeleteOrder s then
    (db, NotFound "Unable to find entry", value_out)
  else if IsNotFound s then
    let '(w, s, v) := se_Get read_options key (world db) in
    let db := called (CallSeGet key) w db in
    let value_out := store_out v value_out in
    if IsNotFound s then (db, s, value_out)
    else if IsOK s then (db, s, value_out)
    else (db, s, value_out)
  else (db, s, value_out).

(** *** PutChunkValidSize *)

(** The frame built when compression is given up for the entry: a buffer of
    [size_uncompressed_frame(chunk->size())] bytes (zeroes stand for the
    fresh allocation), its header marked, the chunk copied behind it. *)
Definition uncompressed_frame (chunk : ByteArray) : list byte :=
  let compressed :=
    replicate (Z.to_nat (Compressor.size_uncompressed_frame (size chunk))) x00 in
  let compressed := DisableCompressionInFrameHeader compressed in
  memcpy_at compressed size_frame_header (bytes chunk).

(** The test of lines 139-140. *)
Definition over_budget (chunk : ByteArray)
    (offset_chunk size_value offset_chunk_compressed size_compressed : Z) : bool :=
  let size_remaining := u64_sub size_value offset_chunk in
  let space_left :=
    u64_sub (u64_add size_value (CalculatePaddingSize size_value))
            offset_chunk_compressed in
  u64_add (u64_sub size_remaining (size chunk)) size_frame_header
    >? u64_sub space_left size_compressed.

(** Lines 136-149: "Now Checking if compression should be disabled for this
    entry". *)
Definition DisableCompressionIfOverBudget (tid : nat) (chunk : ByteArray)
    (offset_chunk size_value offset_chunk_compressed : Z)
    (compressed : list byte) (size_compressed : Z) (db : KingDB)
  : KingDB * list byte * Z :=
  if over_budget chunk offset_chunk size_value offset_chunk_compressed size_compressed
  then
    let compressed := uncompressed_frame chunk in
    let db :=
      with_compressor
        (Compressor.AdjustCompressedSize tid (u64_neg size_compressed)) db in
    let size_compressed := u64_add (size chunk) size_frame_header in
    let db := with_ts_compression_enabled (ThreadStorage.put tid 0) db in
    let db :=
      with_ts_offset
        (ThreadStorage.put tid
           (u64_add (Compressor.size_compressed tid (compressor_ db))
                    size_compressed)) db in
    (db, compressed, size_compressed)
  else (db, compressed, size_compressed).

(** Lines 102-163: the choice of the bytes to write and of their offset.
    [inl s] is the return of line 151; [inr] carries
    [offset_chunk_compressed] and [chunk_final]. *)
Definition ChooseFraming (tid : nat) (chunk : ByteArray)
    (offset_chunk size_value : Z) (do_compression is_first_chunk : bool)
    (db : KingDB) : KingDB * (Status + Z * ByteArray) :=
  let offset_chunk_compressed := offset_chunk in
  let db :=
    if is_first_chunk then
      with_ts_offset (ThreadStorage.put tid 0)
        (with_ts_compression_enabled (ThreadStorage.put tid 1) db)
    else db in
  let '(db, offset_chunk_compressed) :=
    if ThreadStorage.get tid (ts_compression_enabled_ db) =? 0 then
      let offset_chunk_compressed := ThreadStorage.get tid (ts_offset_ db) in
      (with_ts_offset
         (ThreadStorage.put tid (u64_add offset_chunk_compressed (size chunk))) db,
       offset_chunk_compressed)
    else (db, offset_chunk_compressed) in
  if negb do_compression
     || (ThreadStorage.get tid (ts_compression_enabled_ db) =? 0)
  then (db, inr (offset_chunk_compressed, chunk))
  else
    let db :=
      if is_first_chunk
      then with_compressor (Compressor.ResetThreadLocalStorage tid) db
      else db in
    let offset_chunk_compressed :=
      Compressor.size_compressed tid (compressor_ db) in
    let '(c, s, compressed, size_compressed) :=
      Compressor.Compress tid (bytes chunk) (compressor_ db) in
    let db := with_compressor (λ _, c) db in
    let '(db, compressed, size_compressed) :=
      DisableCompressionIfOverBudget tid chunk offset_chunk size_value
        offset_chunk_compressed compressed size_compressed db in
    if negb (IsOK s) then (db, inl s)
    else
      (db, inr (offset_chunk_compressed,
                SharedAllocatedByteArray compressed size_compressed)).

(** Line 162: what is left of the caller's chunk after lines 102-163.  The
    compressed branch, taken when the test of line 116 fails, ends with
    [delete chunk]: [None] is the deleted chunk. *)
Definition chunk_after_framing (tid : nat) (chunk : ByteArray)
    (do_compression is_first_chunk : bool) (db : KingDB) : option ByteArray :=
  let db :=
    if is_first_chunk then
      with_ts_offset (ThreadStorage.put tid 0)
        (with_ts_compression_enabled (ThreadStorage.put tid 1) db)
    else db in
  if negb do_compression
     || (ThreadStorage.get tid (ts_compression_enabled_ db) =? 0)
  then Some chunk
  else None.

(** Lines 165-171: the compressed size of the value, for a last chunk under
    compression.  Line 169 reads [chunk->size()] through [chunk]: there is
    nothing to read, [None], when the chunk has been deleted. *)
Definition FinalCompressedSize (tid : nat) (chunk_left : option ByteArray)
    (do_compression is_last_chunk : bool) (offset_chunk_compressed : Z)
    (db : KingDB) : option Z :=
  if do_compression && is_last_chunk then
    if ThreadStorage.get tid (ts_compression_enabled_ db) =? 1
    then Some (Compressor.size_compressed tid (compressor_ db))
    else
      match chunk_left with
      | Some chunk => Some (u64_add offset_chunk_compressed (size chunk))
      | None => None
      end
  else Some 0.

(** Lines 71-199.  The call ends at line 169, before the checksum and the
    write buffer, when that line reads the deleted chunk. *)
Definition PutChunkValidSize (tid : nat) (write_options : WriteOptions)
    (key chunk : ByteArray) (offset_chunk size_value : Z) (db : KingDB)
  : KingDB * Outcome Status :=
  if is_closed_ db then (db, Returns (IOError "The database is not open")) else
  let '(w, s) := se_FileSystemStatus (world db) in
  let db := called CallSeFileSystemStatus w db in
  if negb (IsOK s) then (db, Returns s) else
  let is_first_chunk := offset_chunk =? 0 in
  let is_last_chunk := u64_add (size chunk) offset_chunk =? size_value in
  let do_compression :=
    negb ((size chunk =? 0)
          || is_kNoCompression (compression_type (db_options_ db))) in
  let chunk_left :=
    chunk_after_framing tid chunk do_compression is_first_chunk db in
  match ChooseFraming tid chunk offset_chunk size_value
          do_compression is_first_chunk db with
  | (db, inl s) => (db, Returns s)
  | (db, inr (offset_chunk_compressed, chunk_final)) =>
    match FinalCompressedSize tid chunk_left do_compression is_last_chunk
            offset_chunk_compressed db with
    | None => (db, UseAfterFree)
    | Some size_value_compressed =>
      let db :=
        if is_first_chunk then
          with_crc32 (CRC32.stream tid (bytes key))
            (with_crc32 (CRC32.ResetThreadLocalStorage tid) db)
        else db in
      let db := with_crc32 (CRC32.stream tid (bytes chunk_final)) db in
      let crc32 := if is_last_chunk then CRC32.get tid (crc32_ db) else 0 in
      let size_padding :=
        if do_compression then CalculatePaddingSize size_value else 0 in
      if u64_add offset_chunk_compressed (size chunk_final)
           >? u64_add size_value size_padding
      then
        (db, Returns (IOError
                        "Prevented write to occur outside of the allocated memory."))
      else
        let '(w, s) :=
          wb_PutChunk write_options key chunk_final offset_chunk_compressed
            size_value size_value_compressed crc32 (world db) in
        (called (CallWbPutChunk key chunk_final offset_chunk_compressed
                   size_value size_value_compressed crc32) w db, Returns s)
    end
  end.

(** *** PutChunk and Put *)

(** The loop of lines 54-65.  [chunk] is the caller's array as the loop has
    left it so far, [size_chunk] its size on entry, [s] the status of the
    last submission.  The loop need not end (a maximum chunk size of zero
    never advances [offset]), so it runs on [fuel]: [None] means that the
    fuel ran out before the loop did.  A submission that does not return
    ends the call. *)
Fixpoint PutChunk_loop (fuel : nat) (tid : nat) (write_options : WriteOptions)
    (key chunk : ByteArray) (size_chunk offset_chunk size_value offset : Z)
    (s : Status) (db : KingDB) : option (KingDB * Outcome Status) :=
  match fuel with
  | O => None
  | S fuel =>
    if offset <? size_chunk then
      let maximum := storage__maximum_chunk_size (db_options_ db) in
      let '(chunk, chunk_new) :=
        if u64_add offset maximum <? size chunk
        then (chunk,
              SimpleByteArray (drop (Z.to_nat offset) (data chunk)) maximum)
        else (set_offset offset chunk, set_offset offset chunk) in
      match PutChunkValidSize tid write_options key chunk_new
              (u64_add offset_chunk offset) size_value db with
      | (db, Returns s) =>
        if negb (IsOK s) then Some (db, Returns s)
        else
          PutChunk_loop fuel tid write_options key chunk size_chunk
            offset_chunk size_value (u64_add offset maximum) s db
      | (db, stopped) => Some (db, stopped)
      end
    else Some (db, Returns s)
  end.

Definition PutChunk (fuel : nat) (tid : nat) (write_options : WriteOptions)
    (key chunk : ByteArray) (offset_chunk size_value : Z) (db : KingDB)
  : option (KingDB * Outcome Status) :=
  if is_closed_ db then
    Some (db, Returns (IOError "The database is not open")) else
  if size_value <=? storage__maximum_chunk_size (db_options_ db) then
    Some (PutChunkValidSize tid write_options key chunk offset_chunk size_value db)
  else
    let size_chunk := size chunk in
    PutChunk_loop fuel tid write_options key chunk size_chunk
      offset_chunk size_value 0 OK db.

Definition Put (fuel : nat) (tid : nat) (write_options : WriteOptions)
    (key chunk : ByteArray) (db : KingDB)
  : option (KingDB * Outcome Status) :=
  PutChunk fuel tid write_options key chunk 0 (size chunk) db.

(** *** Delete *)

Definition Delete (write_options : WriteOptions) (key : ByteArray) (db : KingDB)
  : KingDB * Status :=
  if is_closed_ db then (db, IOError "The database is not open") else
  let '(w, s) := se_FileSystemStatus (world db) in
  let db := called CallSeFileSystemStatus w db in
  if negb (IsOK s) then (db, s) else
  let '(w, s) := wb_Delete write_options key (world db) in
  (called (CallWbDelete key) w db, s).

(** *** NewSnapshot and NewIterator *)

(** [None] is the null pointer. *)
Definition NewSnapshot (db : KingDB) : KingDB * option Snapshot :=
  if is_closed_ db then (db, None) else
  let db := called CallWbFlush (wb_Flush (world db)) db in
  let '(w, fileid_end) := se_FlushCurrentFileForSnapshot (world db) in
  let db := called CallSeFlushCurrentFileForSnapshot w db in
  let '(w, s, (snapshot_id, fileids_ignore)) :=
    se_GetNewSnapshotData (world db) in
  let db := called CallSeGetNewSnapshotData w db in
  if negb (IsOK s) then (db, None) else
  let se_readonly :=
    mkEngineView (db_options_ db) (dbname_ db) true fileids_ignore fileid_end in
  let db := called (CallNewStorageEngine se_readonly)
              (se_new se_readonly (world db)) db in
  let '(w, fileids_iterator) := se_GetFileidsIterator se_readonly (world db) in
  let db := called (CallSeGetFileidsIterator se_readonly) w db in
  let snapshot :=
    mkSnapshot (db_options_ db) (dbname_ db) LiveEngine
      (ViewEngine se_readonly) fileids_iterator snapshot_id in
  (db, Some snapshot).

(** Modelled from the spec: [Snapshot::NewIterator] and
    [BasicIterator::SetParentSnapshot], which the snapshot's and the
    iterator's own files define; the snapshot hands out an iterator over
    itself, and the iterator then back-references the snapshot it was
    requested from. *)
Definition Snapshot_NewIterator (read_options : ReadOptions) (snapshot : Snapshot)
  : BasicIterator ReadOptions :=
  mkBasicIterator read_options snapshot None.

Definition SetParentSnapshot (snapshot : Snapshot) (si : BasicIterator ReadOptions)
  : BasicIterator ReadOptions :=
  mkBasicIterator (it_read_options si) (it_snapshot si) (Some snapshot).

(** [snapshot->NewIterator(...)] is a call through the pointer
    [NewSnapshot] returned: through a null pointer it is
    [NullDereference]. *)
Definition NewIterator (read_options : ReadOptions) (db : KingDB)
  : KingDB * Outcome (option (BasicIterator ReadOptions)) :=
  if is_closed_ db then (db, Returns None) else
  let '(db, snapshot) := NewSnapshot db in
  match snapshot with
  | None => (db, NullDereference)
  | Some snapshot =>
    let it := Snapshot_NewIterator read_options snapshot in
    let si := SetParentSnapshot snapshot it in
    (db, Returns (Some si))
  end.

End Handle.

Arguments KingDB World : clear implicits.

(** ** Chunk sequences *)

Section Sequences.
Context {World ReadOptions WriteOptions : Type}.
Context `{!WriteBuffer World ReadOptions WriteOptions}.
Context `{!StorageEngine World ReadOptions}.
Context `{!Codec}.

(** One call of [PutChunkValidSize], by some writer thread. *)
Record ChunkCall : Type := mkChunkCall {
  cc_tid : nat;
  cc_write_options : WriteOptions;
  cc_key : ByteArray;
  cc_chunk : ByteArray;
  cc_offset_chunk : Z;
  cc_size_value : Z
}.

Definition run_call (db : KingDB World) (c : ChunkCall)
  : KingDB World * Outcome Status :=
  PutChunkValidSize (cc_tid c) (cc_write_options c) (cc_key c)
    (cc_chunk c) (cc_offset_chunk c) (cc_size_value c) db.

(** The handle after a sequence of calls, made one after the other; a call
    that does not return is the last one made. *)
Fixpoint run_calls (cs : list ChunkCall) (db : KingDB World) : KingDB World :=
  match cs with
  | [] => db
  | c :: cs =>
    match run_call db c with
    | (db, Returns _) => run_calls cs db
    | (db, _) => db
    end
  end.

(** How many pieces of at most [maximum] bytes a chunk falls into. *)
Definition sub_chunk_count (chunk : ByteArray) (maximum : Z) : nat :=
  Z.to_nat ((size chunk + maximum - 1) / maximum).

(** The [i]-th window of [maximum] bytes into the chunk, not owning its
    bytes, with its offset in the value. *)
Definition window (chunk : ByteArray) (maximum offset_chunk : Z) (i : nat)
  : ByteArray * Z :=
  (SimpleByteArray (drop (Z.to_nat (Z.of_nat i * maximum)) (data chunk)) maximum,
   u64_add offset_chunk (Z.of_nat i * maximum)).


(** Submissions made in order until one fails or does not return; the
    status is that of the last submission made. *)
Fixpoint submit_in_order
    (submit : ByteArray → Z → KingDB World → KingDB World * Outcome Status)
    (subs : list (ByteArray * Z)) (s : Status) (db : KingDB World)
  : KingDB World * Outcome Status :=
  match subs with
  | [] => (db, Returns s)
  | (c, o) :: rest =>
    match submit c o db with
    | (db, Returns s) =>
      if negb (IsOK s) then (db, Returns s)
      else submit_in_order submit rest s db
    | (db, stopped) => (db, stopped)
    end
  end.

End Sequences.

(** ** A concrete set of collaborators

    A write buffer and an engine that answer with fixed statuses, and a
    codec that writes one (byte, length) pair per run behind an eight-byte
    header; enough to run the handle on examples. *)

Record Scripted : Type := mkScripted {
  buffer_get_status : Status;
  engine_get_status : Status;
  filesystem_status : Status;
  buffer_put_status : Status;
  snapshot_data_status : Status
}.

#[export] Instance scripted_buffer : WriteBuffer Scripted unit unit := {
  wb_Get := λ _ _ w, (w, buffer_get_status w, None);
  wb_PutChunk := λ _ _ _ _ _ _ _ w, (w, buffer_put_status w);
  wb_Delete := λ _ _ w, (w, OK);
  wb_Flush := λ w, w
}.

#[export] Instance scripted_engine : StorageEngine Scripted unit := {
  se_Get := λ _ _ w, (w, engine_get_status w, None);
  se_FileSystemStatus := λ w, (w, filesystem_status w);
  se_FlushCurrentFileForSnapshot := λ w, (w, 3);
  se_GetNewSnapshotData := λ w, (w, snapshot_data_status w, (1, ∅));
  se_new := λ _ w, w;
  se_GetFileidsIterator := λ _ w, (w, [1; 2; 3]);
  CalculatePaddingSize := λ n, (n / 65536 + 1) * 8
}.

(** Runs of equal bytes, each with its length. *)
Fixpoint runs (bs : list byte) : list (byte * nat) :=
  match bs with
  | [] => []
  | b :: rest =>
    match runs rest with
    | (b', n) :: more =>
      if Byte.eqb b b' then (b, S n) :: more else (b, 1%nat) :: (b', n) :: more
    | [] => [(b, 1%nat)]
    end
  end.

Definition run_bytes (r : byte * nat) : list byte :=
  [r.1; default xff (Byte.of_nat r.2)].

#[export] Instance run_length_codec : Codec := {
  lz_frame := λ source,
    (OK, replicate 8 x01 ++ concat (map run_bytes (runs source)));
  size_frame_header := 8;
  DisableCompressionInFrameHeader := λ frame, frame;
  crc32_of := λ bs, Z.of_nat (length bs)
}.

Definition healthy : Scripted :=
  mkScripted (NotFound "") OK OK OK OK.

Definition bad_disk : Scripted :=
  mkScripted (NotFound "") OK (IOError "disk") OK OK.

Definition no_snapshot_data : Scripted :=
  mkScripted (NotFound "") OK OK OK (IOError "no snapshot").

Definition scripted_db (closed : bool) (maximum : Z) (c : CompressionType)
    (w : Scripted) : KingDB Scripted :=
  mkKingDB closed (mkDatabaseOptions maximum c) "db" ∅ ∅ ∅ ∅ w [].

Definition caller_bytes (bs : list byte) : ByteArray :=
  mkByteArray bs (Z.of_nat (length bs)) 0 CallerBuffer.

Definition key_k : ByteArray := caller_bytes [x6b].
Definition value_abcdefg : ByteArray :=
  caller_bytes [x61; x62; x63; x64; x65; x66; x67].
Definition value_a32 : ByteArray := caller_bytes (replicate 32 x61).

(** ** The calls of a split Put *)

(** What [Put] of an oversize value asks of its collaborators when
    compression is off and all goes well: for each window the file-system
    status and a [PutChunk] of the write buffer with no checksum yet, then
    the same for the caller's array with its offset advanced, with the
    checksum [crc32]. *)
Definition plain_put_calls (key chunk : ByteArray) (maximum crc32 : Z)
  : list Call :=
  concat
    (map (λ i : nat,
            [CallSeFileSystemStatus;
             CallWbPutChunk key (window chunk maximum 0 i).1
               (Z.of_nat i * maximum) (size chunk) 0 0])
         (seq 0 (sub_chunk_count chunk maximum - 1)))
  ++ [CallSeFileSystemStatus;
      CallWbPutChunk key
        (set_offset (Z.of_nat (sub_chunk_count chunk maximum - 1) * maximum)
           chunk)
        (Z.of_nat (sub_chunk_count chunk maximum - 1) * maximum)
        (size chunk) 0 crc32].

(** ** More inputs for the examples *)

(** A codec that always fails. *)
Definition failing_codec : Codec := {|
  lz_frame := λ _, (IOError "codec", []);
  size_frame_header := 8;
  DisableCompressionInFrameHeader := λ frame, frame;
  crc32_of := λ bs, Z.of_nat (length bs)
|}.

Definition value_aaaabbb : ByteArray :=
  caller_bytes [x61; x61; x61; x61; x62; x62; x62].
Definition value_abc : ByteArray := caller_bytes [x61; x62; x63].
Definition value_empty : ByteArray := caller_bytes [].

(** An open handle whose thread-local storages already hold something. *)
Definition scripted_db_with (maximum : Z) (c : CompressionType)
    (flags offsets counts : gmap nat Z) (sums : gmap nat (list byte))
    (w : Scripted) : KingDB Scripted :=
  mkKingDB false (mkDatabaseOptions maximum c) "db" flags offsets counts sums
    w [].

(** * Properties *)

(** ** Arithmetic modulo 2^64 and thread storage *)

Lemma wrap64_range x : 0 ≤ wrap64 x < 2 ^ 64.
Proof. unfold wrap64. apply Z.mod_pos_bound. lia. Qed.

Lemma wrap64_small x : 0 ≤ x < 2 ^ 64 → wrap64 x = x.
Proof. intros Hx. unfold wrap64. by apply Z.mod_small. Qed.

Lemma ts_get_put_eq tid v ts :
  ThreadStorage.get tid (ThreadStorage.put tid v ts) = v.
Proof. unfold ThreadStorage.get, ThreadStorage.put. by rewrite lookup_insert_eq. Qed.

Lemma ts_get_put_ne tid tid' v ts :
  tid ≠ tid' →
  ThreadStorage.get tid' (ThreadStorage.put tid v ts) = ThreadStorage.get tid' ts.
Proof.
  intros Hne. unfold ThreadStorage.get, ThreadStorage.put.
  by rewrite lookup_insert_ne.
Qed.

Section Properties.
Context {World ReadOptions WriteOptions : Type}.
Context `{!WriteBuffer World ReadOptions WriteOptions}.
Context `{!StorageEngine World ReadOptions}.
Context `{!Codec}.

Implicit Types (db : KingDB World) (key chunk : ByteArray) (s : Status).
Implicit Types (tid : nat) (offset_chunk size_value : Z).

(** ** The closed handle *)

(** C7: once [is_closed_] is set, [Get], [Put], [PutChunk],
    [PutChunkValidSize] and [Delete] return IOError "The database is not
    open" whatever their arguments, without touching the handle, and
    [NewSnapshot] and [NewIterator] return null. *)
Theorem closed_database_rejects
    db (read_options : ReadOptions) (write_options : WriteOptions)
    key chunk value_out tid offset_chunk size_value (fuel : nat) :
  is_closed_ db = true →
  Get read_options key value_out db
    = (db, IOError "The database is not open", value_out)
  ∧ Put fuel tid write_options key chunk db
    = Some (db, Returns (IOError "The database is not open"))
  ∧ PutChunk fuel tid write_options key chunk offset_chunk size_value db
    = Some (db, Returns (IOError "The database is not open"))
  ∧ PutChunkValidSize tid write_options key chunk offset_chunk size_value db
    = (db, Returns (IOError "The database is not open"))
  ∧ Delete write_options key db = (db, IOError "The database is not open")
  ∧ NewSnapshot db = (db, None)
  ∧ NewIterator read_options db = (db, Returns None).
Proof.
  intros Hclosed.
  unfold Get, Put, PutChunk, PutChunkValidSize, Delete, NewSnapshot, NewIterator.
  rewrite Hclosed. repeat split.
Qed.

(** ** Get *)

(** C3: on an open handle [Get] asks the write buffer first.  A DeleteOrder
    from the buffer becomes NotFound and the engine is not asked; a NotFound
    from the buffer makes [Get] ask the engine and return the engine's
    status as it is; any other status of the buffer is returned as it is
    and the engine is not asked. *)
Theorem Get_buffer_then_engine db (read_options : ReadOptions) key value_out :
  is_closed_ db = false →
  ∀ w1 s1 v1, wb_Get read_options key (world db) = (w1, s1, v1) →
  let db1 := called (CallWbGet key) w1 db in
  (IsDeleteOrder s1 = true →
     Get read_options key value_out db
       = (db1, NotFound "Unable to find entry", store_out v1 value_out))
  ∧ (IsNotFound s1 = true →
     ∀ w2 s2 v2, se_Get read_options key w1 = (w2, s2, v2) →
     Get read_options key value_out db
       = (called (CallSeGet key) w2 db1, s2,
          store_out v2 (store_out v1 value_out)))
  ∧ (IsDeleteOrder s1 = false → IsNotFound s1 = false →
     Get read_options key value_out db = (db1, s1, store_out v1 value_out)).
Proof.
  intros Hopen w1 s1 v1 Hwb db1. unfold Get. rewrite Hopen, Hwb.
  fold db1. repeat split.
  - by intros ->.
  - intros Hnf w2 s2 v2 Hse.
    assert (IsDeleteOrder s1 = false) as ->.
    { unfold IsNotFound, IsDeleteOrder in *. by destruct (code s1). }
    rewrite Hnf. simpl. rewrite Hse.
    by destruct (IsNotFound s2), (IsOK s2).
  - by intros -> ->.
Qed.

(** ** Early returns of PutChunkValidSize *)

(** C9: on an open handle, a status of the engine's [FileSystemStatus]
    that is not OK is what [PutChunkValidSize] returns; the engine has been
    asked and nothing else has happened: no thread-local storage changed and
    the write buffer was not called. *)
Theorem PutChunkValidSize_filesystem_error
    db tid (write_options : WriteOptions) key chunk offset_chunk size_value w s :
  is_closed_ db = false →
  se_FileSystemStatus (world db) = (w, s) →
  IsOK s = false →
  ∃ db',
    PutChunkValidSize tid write_options key chunk offset_chunk size_value db
      = (db', Returns s)
    ∧ ts_compression_enabled_ db' = ts_compression_enabled_ db
    ∧ ts_offset_ db' = ts_offset_ db
    ∧ crc32_ db' = crc32_ db
    ∧ compressor_ db' = compressor_ db
    ∧ world db' = w
    ∧ calls db' = calls db ++ [CallSeFileSystemStatus].
Proof.
  intros Hopen Hfs Hbad. exists (called CallSeFileSystemStatus w db).
  unfold PutChunkValidSize. rewrite Hopen, Hfs, Hbad. simpl. repeat split.
Qed.

(** ** NewSnapshot *)

(** C8: on an open handle [NewSnapshot] flushes the write buffer, has the
    engine close its current file (which gives [fileid_end]), asks the
    engine for the snapshot id and the file ids to ignore, and stops with a
    null snapshot when that fails; otherwise it builds a read-only engine
    from the database name, read-only set, the ignored file ids and
    [fileid_end], asks it for the file ids to iterate, and returns a
    snapshot over the live engine and the read-only one.  The collaborators
    are called in that order and no others are. *)
Theorem NewSnapshot_steps db :
  is_closed_ db = false →
  ∀ w2 fileid_end w3 s snapshot_id fileids_ignore,
  se_FlushCurrentFileForSnapshot (wb_Flush (world db)) = (w2, fileid_end) →
  se_GetNewSnapshotData w2 = (w3, s, (snapshot_id, fileids_ignore)) →
  let se_readonly :=
    mkEngineView (db_options_ db) (dbname_ db) true fileids_ignore fileid_end in
  ∀ w5 fileids_iterator,
  se_GetFileidsIterator se_readonly (se_new se_readonly w3)
    = (w5, fileids_iterator) →
  ∃ db', 
    (IsOK s = true →
       NewSnapshot db
         = (db', Some (mkSnapshot (db_options_ db) (dbname_ db) LiveEngine
                         (ViewEngine se_readonly) fileids_iterator snapshot_id))
       ∧ world db' = w5
       ∧ calls db' = calls db ++
           [CallWbFlush; CallSeFlushCurrentFileForSnapshot;
            CallSeGetNewSnapshotData; CallNewStorageEngine se_readonly;
            CallSeGetFileidsIterator se_readonly])
    ∧ (IsOK s = false →
       NewSnapshot db = (db', None)
       ∧ world db' = w3
       ∧ calls db' = calls db ++
           [CallWbFlush; CallSeFlushCurrentFileForSnapshot;
            CallSeGetNewSnapshotData]).
Proof.
  intros Hopen w2 fileid_end w3 s snapshot_id fileids_ignore Hseal Hdata
    se_readonly w5 fileids_iterator Hids.
  unfold NewSnapshot. rewrite Hopen. simpl. rewrite Hseal. simpl.
  rewrite Hdata. simpl. fold se_readonly.
  destruct (IsOK s) eqn:Hs; simpl.
  - rewrite Hids. eexists. split; [intros _|done].
    split; [reflexivity|]. simpl. split; [done|].
    by rewrite <- !app_assoc.
  - eexists. split; [done|intros _].
    split; [reflexivity|]. simpl. split; [done|].
    by rewrite <- !app_assoc.
Qed.

(** ** What the stages of PutChunkValidSize leave alone *)

(** [ChooseFraming] works on the thread-local storages of the compressor
    and of the fallback only. *)
Lemma ChooseFraming_frame db tid chunk offset_chunk size_value
    (do_compression is_first_chunk : bool) db1 r :
  ChooseFraming tid chunk offset_chunk size_value do_compression
    is_first_chunk db = (db1, r) →
  is_closed_ db1 = is_closed_ db
  ∧ db_options_ db1 = db_options_ db
  ∧ dbname_ db1 = dbname_ db
  ∧ crc32_ db1 = crc32_ db
  ∧ world db1 = world db
  ∧ calls db1 = calls db.
Proof.
  unfold ChooseFraming, DisableCompressionIfOverBudget.
  intros Hcf.
  repeat match type of Hcf with
         | context [if ?b then _ else _] => destruct b
         | context [let '(_, _) := ?p in _] => destruct p
         end;
  simplify_eq; done.
Qed.

(** What [chunk_after_framing] leaves is the caller's chunk or nothing. *)
Lemma chunk_after_framing_cases db tid chunk
    (do_compression is_first_chunk : bool) :
  chunk_after_framing tid chunk do_compression is_first_chunk db = Some chunk
  ∨ chunk_after_framing tid chunk do_compression is_first_chunk db = None.
Proof. unfold chunk_after_framing. destruct (_ || _); auto. Qed.

(** A compressed size of the value that line 169 could read is the sum it
    computes. *)
Lemma FinalCompressedSize_value db db1 tid chunk
    (do_compression is_first_chunk is_last_chunk : bool)
    offset_chunk_compressed size_value_compressed :
  FinalCompressedSize tid
    (chunk_after_framing tid chunk do_compression is_first_chunk db)
    do_compression is_last_chunk offset_chunk_compressed db1
    = Some size_value_compressed →
  size_value_compressed
  = if do_compression && is_last_chunk then
      if ThreadStorage.get tid (ts_compression_enabled_ db1) =? 1
      then Compressor.size_compressed tid (compressor_ db1)
      else u64_add offset_chunk_compressed (size chunk)
    else 0.
Proof.
  unfold FinalCompressedSize. intros Hfcs.
  destruct (do_compression && is_last_chunk); [|by simplify_eq].
  destruct (_ =? 1); [by simplify_eq|].
  destruct (chunk_after_framing_cases db tid chunk do_compression
              is_first_chunk) as [Hleft|Hleft];
    rewrite Hleft in Hfcs; by simplify_eq.
Qed.

(** The calls one [PutChunkValidSize] adds to the history: none on a closed
    handle, else the engine's [FileSystemStatus], followed or not by one
    [PutChunk] of the write buffer. *)
Lemma PutChunkValidSize_calls
    db tid (write_options : WriteOptions) key chunk offset_chunk size_value db'
    (r : Outcome Status) :
  PutChunkValidSize tid write_options key chunk offset_chunk size_value db
    = (db', r) →
  calls db' = calls db
  ∨ calls db' = calls db ++ [CallSeFileSystemStatus]
  ∨ ∃ db1 offset_chunk_compressed chunk_final size_value_compressed crc32,
      ChooseFraming tid chunk offset_chunk size_value
        (negb ((size chunk =? 0)
               || is_kNoCompression (compression_type (db_options_ db))))
        (offset_chunk =? 0)
        (called CallSeFileSystemStatus (se_FileSystemStatus (world db)).1 db)
        = (db1, inr (offset_chunk_compressed, chunk_final))
      ∧ size_value_compressed
        = (if negb ((size chunk =? 0)
                    || is_kNoCompression (compression_type (db_options_ db)))
              && (u64_add (size chunk) offset_chunk =? size_value)
           then
             if ThreadStorage.get tid (ts_compression_enabled_ db1) =? 1
             then Compressor.size_compressed tid (compressor_ db1)
             else u64_add offset_chunk_compressed (size chunk)
           else 0)
      ∧ ts_compression_enabled_ db' = ts_compression_enabled_ db1
      ∧ ts_offset_ db' = ts_offset_ db1
      ∧ compressor_ db' = compressor_ db1
      ∧ calls db' = calls db ++
          [CallSeFileSystemStatus;
           CallWbPutChunk key chunk_final offset_chunk_compressed size_value
             size_value_compressed crc32].
Proof.
  unfold PutChunkValidSize. intros Hput.
  destruct (is_closed_ db); [left; by simplify_eq|].
  destruct (se_FileSystemStatus (world db)) as [w s0] eqn:Hfs.
  destruct (IsOK s0); simpl in Hput; [|right; left; by simplify_eq].
  destruct (ChooseFraming _ _ _ _ _ _ _) as [db1 [s1|[occ cf]]] eqn:Hcf.
  { right; left. simplify_eq. apply ChooseFraming_frame in Hcf. by intuition. }
  pose proof (ChooseFraming_frame _ _ _ _ _ _ _ _ _ Hcf) as (_ & Hopt & _ & _ & _ & Hcalls).
  simpl in Hopt, Hcalls.
  destruct (FinalCompressedSize _ _ _ _ _ _) as [svc|] eqn:Hfcs.
  2:{ right; left. by simplify_eq. }
  apply FinalCompressedSize_value in Hfcs.
  destruct (_ >? _).
  { right; left. simplify_eq.
    destruct (offset_chunk =? 0); simpl; done. }
  destruct (wb_PutChunk _ _ _ _ _ _ _ _) as [w' s'] eqn:Hwb.
  right; right. injection Hput as Hdb Hr. subst db' r.
  destruct (offset_chunk =? 0); simpl;
    eexists db1, occ, cf, svc, _; (split; [done|]); (split; [exact Hfcs|]);
    simpl; rewrite Hcalls, <- app_assoc;
    repeat (split; [reflexivity|]); reflexivity.
Qed.

(** After the file-system check, the thread-local storages of the fallback
    and of the compressor end a call of [PutChunkValidSize] the way
    [ChooseFraming] left them. *)
Lemma PutChunkValidSize_streaming_state
    db tid (write_options : WriteOptions) key chunk offset_chunk size_value w s0 :
  is_closed_ db = false →
  se_FileSystemStatus (world db) = (w, s0) →
  IsOK s0 = true →
  let db1 :=
    (ChooseFraming tid chunk offset_chunk size_value
       (negb ((size chunk =? 0)
              || is_kNoCompression (compression_type (db_options_ db))))
       (offset_chunk =? 0) (called CallSeFileSystemStatus w db)).1 in
  let db' :=
    (PutChunkValidSize tid write_options key chunk offset_chunk size_value db).1 in
  ts_compression_enabled_ db' = ts_compression_enabled_ db1
  ∧ ts_offset_ db' = ts_offset_ db1
  ∧ compressor_ db' = compressor_ db1.
Proof.
  intros Hopen Hfs Hok. unfold PutChunkValidSize.
  rewrite Hopen, Hfs, Hok. simpl.
  destruct (ChooseFraming _ _ _ _ _ _ _) as [db1 [s1|[occ cf]]]; [done|].
  destruct (FinalCompressedSize _ _ _ _ _ _); [|done].
  destruct (_ >? _); [by destruct (offset_chunk =? 0)|].
  destruct (wb_PutChunk _ _ _ _ _ _ _ _).
  by destruct (offset_chunk =? 0).
Qed.

(** ** The compressed size of the value *)

(** Whenever [PutChunkValidSize] does hand a chunk to the write buffer, the
    [size_value_compressed] it passes is, for a last chunk under
    compression, the compressor's [size_compressed()] when the thread-local
    [ts_compression_enabled_] is 1 and [offset_chunk_compressed] plus the
    size of the chunk when it is not; for any other chunk it is 0.  (A call
    in which the fallback engages on a last chunk hands nothing over.) *)
Lemma size_value_compressed_when_handed_over
    db tid (write_options : WriteOptions) key chunk offset_chunk size_value db'
    (r : Outcome Status)
    evs k chunk_final offset_chunk_compressed sv size_value_compressed crc32 :
  PutChunkValidSize tid write_options key chunk offset_chunk size_value db
    = (db', r) →
  calls db' = calls db ++ evs →
  In (CallWbPutChunk k chunk_final offset_chunk_compressed sv
        size_value_compressed crc32) evs →
  let do_compression :=
    negb ((size chunk =? 0)
          || is_kNoCompression (compression_type (db_options_ db))) in
  let is_last_chunk := u64_add (size chunk) offset_chunk =? size_value in
  size_value_compressed
  = if do_compression && is_last_chunk then
      if ThreadStorage.get tid (ts_compression_enabled_ db') =? 1
      then Compressor.size_compressed tid (compressor_ db')
      else u64_add offset_chunk_compressed (size chunk)
    else 0.
Proof.
  intros Hput Hevs Hin do_compression is_last_chunk.
  destruct (PutChunkValidSize_calls _ _ _ _ _ _ _ _ _ Hput)
    as [Hc|[Hc|(db1 & occ & cf & svc & crc & _ & Hsvc & Hflag & _ & Hcomp & Hc)]];
    rewrite Hevs in Hc.
  - rewrite <- (app_nil_r (calls db)) in Hc at 2.
    apply app_inv_head in Hc. subst evs. destruct Hin.
  - apply app_inv_head in Hc. subst evs.
    destruct Hin as [Hin|[]]. discriminate Hin.
  - apply app_inv_head in Hc. subst evs.
    destruct Hin as [Hin|[Hin|[]]]; [discriminate Hin|].
    simplify_eq. by rewrite Hflag, Hcomp.
Qed.

(** ** The bounds check *)

(** C6: on an open handle with a healthy file system, a chunk that got past
    the compressor (line 151) and past the computation of
    [size_value_compressed] (lines 165-171, which must not read a deleted
    chunk) reaches the bounds check, and ends [PutChunkValidSize] in one of
    two ways.  With [size_padding] the padding of [size_value] under
    compression and 0 otherwise, the call returns IOError "Prevented write
    to occur outside of the allocated memory." without calling the write
    buffer exactly when [offset_chunk_compressed + chunk_final->size() >
    size_value + size_padding] (sums of [uint64_t]); when that does not
    hold, the chunk goes to the write buffer's [PutChunk] with that
    [size_value_compressed], and the buffer's status is returned. *)
Theorem bounds_check_or_dispatch
    db tid (write_options : WriteOptions) key chunk offset_chunk size_value
    w s0 db1 offset_chunk_compressed chunk_final size_value_compressed :
  is_closed_ db = false →
  se_FileSystemStatus (world db) = (w, s0) →
  IsOK s0 = true →
  let do_compression :=
    negb ((size chunk =? 0)
          || is_kNoCompression (compression_type (db_options_ db))) in
  let is_last_chunk := u64_add (size chunk) offset_chunk =? size_value in
  ChooseFraming tid chunk offset_chunk size_value do_compression
    (offset_chunk =? 0) (called CallSeFileSystemStatus w db)
    = (db1, inr (offset_chunk_compressed, chunk_final)) →
  FinalCompressedSize tid
    (chunk_after_framing tid chunk do_compression (offset_chunk =? 0)
       (called CallSeFileSystemStatus w db))
    do_compression is_last_chunk offset_chunk_compressed db1
    = Some size_value_compressed →
  let size_padding :=
    if do_compression then CalculatePaddingSize size_value else 0 in
  ∃ db' s,
    PutChunkValidSize tid write_options key chunk offset_chunk size_value db
      = (db', Returns s)
    ∧ ((s = IOError "Prevented write to occur outside of the allocated memory."
        ∧ calls db' = calls db ++ [CallSeFileSystemStatus])
       ↔ u64_add offset_chunk_compressed (size chunk_final)
           > u64_add size_value size_padding)
    ∧ (u64_add offset_chunk_compressed (size chunk_final)
         ≤ u64_add size_value size_padding →
       ∃ crc32,
         wb_PutChunk write_options key chunk_final offset_chunk_compressed
           size_value size_value_compressed crc32 w = (world db', s)
         ∧ calls db' = calls db ++
             [CallSeFileSystemStatus;
              CallWbPutChunk key chunk_final offset_chunk_compressed
                size_value size_value_compressed crc32]).
Proof.
  intros Hopen Hfs Hok do_compression is_last_chunk Hcf Hfcs size_padding.
  pose proof (ChooseFraming_frame _ _ _ _ _ _ _ _ _ Hcf)
    as (_ & _ & _ & _ & Hworld & Hcalls).
  simpl in Hworld, Hcalls.
  unfold PutChunkValidSize. rewrite Hopen, Hfs, Hok. simpl.
  fold do_compression. rewrite Hcf. fold is_last_chunk. rewrite Hfcs.
  fold size_padding. clear Hcf Hfcs.
  destruct (Z.gtb_spec (u64_add offset_chunk_compressed (size chunk_final))
              (u64_add size_value size_padding)) as [Hgt|Hle].
  - eexists _, _. split; [reflexivity|]. split.
    + split; [intros _; lia|intros _]. split; [done|].
      by destruct (offset_chunk =? 0).
    + intros Hle. lia.
  - destruct (offset_chunk =? 0); simpl; rewrite Hworld;
      destruct (wb_PutChunk _ _ _ _ _ _ _ _) as [w' s'] eqn:Hwb;
      (eexists _, _; split; [reflexivity|]; simpl; rewrite Hcalls; split;
       [ split; [|lia]; intros [_ Habs];
         rewrite <- app_assoc in Habs; apply app_inv_head in Habs;
         discriminate Habs
       | intros _; eexists _; split; [exact Hwb|];
         by rewrite <- app_assoc ]).
Qed.

(** ** The space budget of a compressed chunk *)


(** ** The fallback is kept for the rest of the entry *)

(** A call by thread [tid'] leaves a fallback engaged by thread [tid]
    engaged, unless it is [tid] itself starting an entry. *)
Lemma ChooseFraming_keeps_fallback db tid' tid chunk offset_chunk size_value
    (do_compression is_first_chunk : bool) db1 r :
  ChooseFraming tid' chunk offset_chunk size_value do_compression
    is_first_chunk db = (db1, r) →
  (tid' = tid → is_first_chunk = false) →
  ThreadStorage.get tid (ts_compression_enabled_ db) = 0 →
  ThreadStorage.get tid (ts_compression_enabled_ db1) = 0.
Proof.
  intros Hcf Hfirst Hzero. destruct (decide (tid' = tid)) as [->|Hne].
  - rewrite (Hfirst eq_refl) in Hcf. unfold ChooseFraming in Hcf.
    rewrite Hzero in Hcf. simpl in Hcf. rewrite Hzero in Hcf. simpl in Hcf.
    rewrite orb_true_r in Hcf. by simplify_eq.
  - unfold ChooseFraming, DisableCompressionIfOverBudget in Hcf.
    repeat match type of Hcf with
           | context [if ?b then _ else _] => destruct b
           | context [let '(_, _) := ?p in _] => destruct p
           end;
    simplify_eq; simpl; rewrite ?ts_get_put_ne by done; done.
Qed.

Lemma PutChunkValidSize_keeps_fallback
    db tid' tid (write_options : WriteOptions) key chunk offset_chunk size_value :
  (tid' = tid → offset_chunk ≠ 0) →
  ThreadStorage.get tid (ts_compression_enabled_ db) = 0 →
  ThreadStorage.get tid
    (ts_compression_enabled_
       (PutChunkValidSize tid' write_options key chunk offset_chunk
          size_value db).1) = 0.
Proof.
  intros Hnot_first Hzero. unfold PutChunkValidSize.
  destruct (is_closed_ db); [done|].
  destruct (se_FileSystemStatus (world db)) as [w s0].
  destruct (IsOK s0); simpl; [|done].
  destruct (ChooseFraming _ _ _ _ _ _ _) as [db1 r] eqn:Hcf.
  eapply (ChooseFraming_keeps_fallback _ _ tid) in Hcf; [|..|exact Hzero].
  - destruct r as [s1|[occ cf]]; [done|].
    destruct (FinalCompressedSize _ _ _ _ _ _); [|done].
    destruct (_ >? _); [by destruct (offset_chunk =? 0)|].
    destruct (wb_PutChunk _ _ _ _ _ _ _ _).
    by destruct (offset_chunk =? 0).
  - intros Heq. apply Z.eqb_neq. auto.
Qed.

(** C5: once [ts_compression_enabled_] is 0 for a writer thread, it is
    still 0 after every further call of [PutChunkValidSize], by that thread
    or by others, as long as that thread does not start an entry (a call
    with [offset_chunk == 0]): nothing else stores 1. *)
Theorem fallback_is_kept db tid (cs : list ChunkCall) :
  ThreadStorage.get tid (ts_compression_enabled_ db) = 0 →
  Forall (λ c, cc_tid c = tid → cc_offset_chunk c ≠ 0) cs →
  ∀ n : nat,
    ThreadStorage.get tid
      (ts_compression_enabled_ (run_calls (take n cs) db)) = 0.
Proof.
  intros Hzero Hcs. revert db Hzero.
  induction Hcs as [|c cs Hc _ IH]; intros db Hzero n.
  - by rewrite take_nil.
  - destruct n as [|n]; [done|]. simpl.
    pose proof (PutChunkValidSize_keeps_fallback db (cc_tid c) tid
                  (cc_write_options c) (cc_key c) (cc_chunk c)
                  (cc_offset_chunk c) (cc_size_value c) Hc Hzero) as Hkept.
    unfold run_call.
    destruct (PutChunkValidSize _ _ _ _ _ _ _) as [db' [s| |]];
      simpl in Hkept; [by apply IH|done|done].
Qed.

(** ** Splitting an oversize chunk *)

Lemma PutChunkValidSize_options
    db tid (write_options : WriteOptions) key chunk offset_chunk size_value :
  db_options_
    (PutChunkValidSize tid write_options key chunk offset_chunk size_value db).1
  = db_options_ db.
Proof.
  unfold PutChunkValidSize.
  destruct (is_closed_ db); [done|].
  destruct (se_FileSystemStatus (world db)) as [w s0].
  destruct (IsOK s0); simpl; [|done].
  destruct (ChooseFraming _ _ _ _ _ _ _) as [db1 r] eqn:Hcf.
  apply ChooseFraming_frame in Hcf as (_ & Hopt & _).
  destruct r as [s1|[occ cf]]; [done|].
  destruct (FinalCompressedSize _ _ _ _ _ _); [|done].
  destruct (_ >? _); [by destruct (offset_chunk =? 0)|].
  destruct (wb_PutChunk _ _ _ _ _ _ _ _).
  by destruct (offset_chunk =? 0).
Qed.

(** The number of sub-chunks is the size over the maximum, rounded up. *)
Lemma sub_chunk_count_bounds (total maximum : Z) :
  0 < maximum → maximum < total →
  let q := (total + maximum - 1) / maximum in
  2 ≤ q ∧ (q - 1) * maximum < total ∧ total ≤ q * maximum.
Proof.
  intros Hpos Hbig q.
  pose proof (Z.div_mod (total + maximum - 1) maximum ltac:(lia)) as Hdm.
  pose proof (Z.mod_pos_bound (total + maximum - 1) maximum Hpos) as Hr.
  fold q in Hdm. nia.
Qed.

Lemma size_set_offset chunk (off : Z) :
  0 ≤ off ≤ size chunk → offset_ chunk = 0 →
  size (set_offset off chunk) = size chunk - off.
Proof.
  intros Hoff Hzero. unfold size, set_offset, u64_sub in *. simpl.
  rewrite Hzero, Z.sub_0_r in *.
  pose proof (wrap64_range (size_ chunk)) as Hrange.
  unfold wrap64 in *. rewrite Zminus_mod, (Z.mod_small off) by lia.
  apply Z.mod_small. lia.
Qed.

Section Split.
Variables (tid : nat) (write_options : WriteOptions) (key chunk : ByteArray).
Variables (offset_chunk size_value maximum : Z).
Hypothesis maximum_pos : 0 < maximum.
Hypothesis chunk_oversize : maximum < size chunk.
Hypothesis no_overflow : size chunk + maximum < 2 ^ 64.

Lemma PutChunk_loop_submits (k i fuel : nat) s db :
  storage__maximum_chunk_size (db_options_ db) = maximum →
  (i + k = sub_chunk_count chunk maximum - 1)%nat →
  (k + 1 < fuel)%nat →
  PutChunk_loop fuel tid write_options key chunk (size chunk) offset_chunk
    size_value (Z.of_nat i * maximum) s db
  = Some (submit_in_order
            (λ c o, PutChunkValidSize tid write_options key c o size_value)
            (map (window chunk maximum offset_chunk) (seq i k)
             ++ [(set_offset
                    (Z.of_nat (sub_chunk_count chunk maximum - 1) * maximum)
                    chunk,
                  u64_add offset_chunk
                    (Z.of_nat (sub_chunk_count chunk maximum - 1) * maximum))])
            s db).
Proof.
  pose proof (sub_chunk_count_bounds (size chunk) maximum
                maximum_pos chunk_oversize) as (Hq2 & Hlow & Hhigh).
  assert (Z.of_nat (sub_chunk_count chunk maximum)
          = (size chunk + maximum - 1) / maximum) as Hn
    by (unfold sub_chunk_count; lia).
  revert i fuel s db. induction k as [|k IH]; intros i fuel s db Hmax Hik Hfuel.
  - destruct fuel as [|[|fuel]]; [lia..|].
    assert (Z.of_nat i * maximum
            = ((size chunk + maximum - 1) / maximum - 1) * maximum) as Hi
      by (f_equal; lia).
    cbn [PutChunk_loop seq map app submit_in_order]. rewrite Hmax.
    assert ((Z.of_nat i * maximum <? size chunk) = true) as ->
      by (apply Z.ltb_lt; lia).
    assert ((u64_add (Z.of_nat i * maximum) maximum <? size chunk) = false) as Hend.
    { apply Z.ltb_ge. unfold u64_add. rewrite wrap64_small; lia. }
    rewrite Hend.
    replace (sub_chunk_count chunk maximum - 1)%nat with i by lia.
    destruct (PutChunkValidSize _ _ _ _ _ _ _) as [db' [s'| |]]; [|done..].
    destruct (IsOK s'); simpl; [|done].
    done.
  - destruct fuel as [|fuel]; [lia|].
    assert (Z.of_nat (i + 1) * maximum < size chunk) as Hnext by nia.
    cbn [PutChunk_loop seq map app submit_in_order]. rewrite Hmax.
    assert ((Z.of_nat i * maximum <? size chunk) = true) as ->
      by (apply Z.ltb_lt; nia).
    assert (u64_add (Z.of_nat i * maximum) maximum = Z.of_nat (S i) * maximum) as ->.
    { unfold u64_add. rewrite wrap64_small; nia. }
    assert ((Z.of_nat (S i) * maximum <? size chunk) = true) as ->
      by (apply Z.ltb_lt; nia).
    unfold window at 1.
    rewrite Z2Nat.inj_mul, Nat2Z.id by lia.
    replace (Z.to_nat (Z.of_nat i * maximum)) with (i * Z.to_nat maximum)%nat
      by (rewrite Z2Nat.inj_mul, Nat2Z.id by lia; done).
    pose proof (PutChunkValidSize_options db tid write_options key
      (SimpleByteArray (drop (i * Z.to_nat maximum) (data chunk)) maximum)
      (u64_add offset_chunk (Z.of_nat i * maximum)) size_value) as Hopt.
    destruct (PutChunkValidSize _ _ _ _ _ _ _) as [db' [s'| |]]; [|done..].
    simpl in Hopt.
    destruct (IsOK s'); simpl; [|done].
    apply IH; [by rewrite Hopt|lia|lia].
Qed.

End Split.



(** ** NewIterator *)

(** Whenever [NewSnapshot] returns null on an open handle, [NewIterator]
    calls [NewIterator] through that null pointer. *)
Lemma NewIterator_after_null_snapshot db (read_options : ReadOptions) :
  is_closed_ db = false →
  (NewSnapshot db).2 = None →
  (NewIterator read_options db).2 = NullDereference.
Proof.
  intros Hopen Hnull. unfold NewIterator. rewrite Hopen.
  destruct (NewSnapshot db) as [db' [snapshot|]]; [discriminate Hnull|done].
Qed.

End Properties.

(** ** The properties at work on the concrete collaborators *)

Lemma closed_database_rejects_witness :
  is_closed_ (scripted_db true 4 kNoCompression healthy) = true
  ∧ Get tt key_k None (scripted_db true 4 kNoCompression healthy)
    = (scripted_db true 4 kNoCompression healthy,
       IOError "The database is not open", None)
  ∧ NewIterator tt (scripted_db true 4 kNoCompression healthy)
    = (scripted_db true 4 kNoCompression healthy, Returns None).
Proof.
  pose proof (closed_database_rejects (scripted_db true 4 kNoCompression healthy)
                tt tt key_k value_abcdefg None 0%nat 0 7 0%nat eq_refl)
    as (Hget & _ & _ & _ & _ & _ & Hiter).
  split; [reflexivity|]. split; [exact Hget|exact Hiter].
Defined.

Lemma Get_buffer_then_engine_witness :
  is_closed_ (scripted_db false 4 kNoCompression healthy) = false
  ∧ wb_Get tt key_k healthy = (healthy, NotFound "", None)
  ∧ se_Get tt key_k healthy = (healthy, OK, None)
  ∧ Get tt key_k None (scripted_db false 4 kNoCompression healthy)
    = (called (CallSeGet key_k) healthy
         (called (CallWbGet key_k) healthy
            (scripted_db false 4 kNoCompression healthy)),
       OK, None).
Proof.
  pose proof (Get_buffer_then_engine
                (scripted_db false 4 kNoCompression healthy) tt key_k None
                eq_refl healthy (NotFound "") None eq_refl)
    as (_ & Hengine & _).
  split; [reflexivity|]. split; [reflexivity|]. split; [reflexivity|].
  exact (Hengine eq_refl healthy OK None eq_refl).
Defined.

Lemma PutChunkValidSize_filesystem_error_witness :
  is_closed_ (scripted_db false 4 kLZ4Compression bad_disk) = false
  ∧ se_FileSystemStatus bad_disk = (bad_disk, IOError "disk")
  ∧ IsOK (IOError "disk") = false
  ∧ ∃ db',
      PutChunkValidSize 0%nat tt key_k value_abcdefg 0 7
        (scripted_db false 4 kLZ4Compression bad_disk)
        = (db', Returns (IOError "disk"))
      ∧ ts_compression_enabled_ db' = ∅
      ∧ ts_offset_ db' = ∅
      ∧ crc32_ db' = ∅
      ∧ compressor_ db' = ∅
      ∧ world db' = bad_disk
      ∧ calls db' = [CallSeFileSystemStatus].
Proof.
  split; [reflexivity|]. split; [reflexivity|]. split; [reflexivity|].
  exact (PutChunkValidSize_filesystem_error
           (scripted_db false 4 kLZ4Compression bad_disk) 0%nat tt key_k
           value_abcdefg 0 7 bad_disk (IOError "disk")
           eq_refl eq_refl eq_refl).
Defined.

Lemma NewSnapshot_steps_witness :
  is_closed_ (scripted_db false 4 kNoCompression healthy) = false
  ∧ se_FlushCurrentFileForSnapshot (wb_Flush healthy) = (healthy, 3)
  ∧ se_GetNewSnapshotData healthy = (healthy, OK, (1, ∅))
  ∧ ∃ db',
      NewSnapshot (scripted_db false 4 kNoCompression healthy)
        = (db',
           Some (mkSnapshot (mkDatabaseOptions 4 kNoCompression) "db" LiveEngine
                   (ViewEngine
                      (mkEngineView (mkDatabaseOptions 4 kNoCompression) "db"
                         true ∅ 3))
                   [1; 2; 3] 1))
      ∧ calls db'
        = [CallWbFlush; CallSeFlushCurrentFileForSnapshot;
           CallSeGetNewSnapshotData;
           CallNewStorageEngine
             (mkEngineView (mkDatabaseOptions 4 kNoCompression) "db" true ∅ 3);
           CallSeGetFileidsIterator
             (mkEngineView (mkDatabaseOptions 4 kNoCompression) "db" true ∅ 3)].
Proof.
  split; [reflexivity|]. split; [reflexivity|]. split; [reflexivity|].
  pose proof (NewSnapshot_steps (ReadOptions := unit) (WriteOptions := unit)
                (scripted_db false 4 kNoCompression healthy)) as Hsteps.
  destruct (Hsteps eq_refl healthy 3 healthy OK 1 ∅ eq_refl eq_refl
              healthy [1; 2; 3] eq_refl)
    as (db' & Hok & _).
  exists db'. destruct (Hok eq_refl) as (Hsnap & _ & Hcalls).
  split; [exact Hsnap|exact Hcalls].
Defined.

(** C10: an open handle whose engine fails in [GetNewSnapshotData] gets a
    null snapshot from [NewSnapshot]; [NewIterator] does not return null
    there, it calls [NewIterator] through the null snapshot. *)
Theorem NewIterator_null_snapshot_dereferenced :
  is_closed_ (scripted_db false 4 kNoCompression no_snapshot_data) = false
  ∧ (NewSnapshot (ReadOptions := unit) (WriteOptions := unit)
       (scripted_db false 4 kNoCompression no_snapshot_data)).2 = None
  ∧ (NewIterator (WriteOptions := unit) tt
       (scripted_db false 4 kNoCompression no_snapshot_data)).2
    = NullDereference
  ∧ (NewIterator (WriteOptions := unit) tt
       (scripted_db false 4 kNoCompression no_snapshot_data)).2
    ≠ Returns None.
Proof. repeat split. discriminate. Qed.

(** C2: a last chunk under compression on which the fallback engages.  The
    seven bytes "aaaabbb" of a value of seven bytes compress to a frame of
    twelve, over the budget, so the compressed branch stores 0 in
    [ts_compression_enabled_], and ends by deleting the chunk (line 162).
    Line 166 then finds the flag at 0 and line 169 reads [chunk->size()]
    through the deleted chunk: the call does not hand
    [offset_chunk_compressed + chunk->size()] to the write buffer, it hands
    nothing over; the engine's [FileSystemStatus] is the only call made. *)
Theorem size_value_compressed_reads_deleted_chunk :
  let db := scripted_db false 100 kLZ4Compression healthy in
  let db0 := called CallSeFileSystemStatus healthy db in
  let do_compression :=
    negb ((size value_aaaabbb =? 0)
          || is_kNoCompression (compression_type (db_options_ db))) in
  let is_last_chunk := u64_add (size value_aaaabbb) 0 =? 7 in
  do_compression = true
  ∧ is_last_chunk = true
  ∧ ∃ db1 chunk_final,
      ChooseFraming 0%nat value_aaaabbb 0 7 do_compression true db0
        = (db1, inr (0, chunk_final))
      ∧ ThreadStorage.get 0%nat (ts_compression_enabled_ db1) = 0
      ∧ chunk_after_framing 0%nat value_aaaabbb do_compression true db0 = None
      ∧ FinalCompressedSize 0%nat None do_compression is_last_chunk 0 db1
        = None
      ∧ PutChunkValidSize 0%nat tt key_k value_aaaabbb 0 7 db
        = (db1, UseAfterFree)
      ∧ calls db1 = [CallSeFileSystemStatus]
      ∧ ∀ k c o sv svc crc,
          ¬ In (CallWbPutChunk k c o sv svc crc) (calls db1).
Proof.
  split; [reflexivity|]. split; [reflexivity|].
  eexists _, _. split; [reflexivity|].
  split; [reflexivity|]. split; [reflexivity|]. split; [reflexivity|].
  split; [reflexivity|]. split; [reflexivity|].
  intros k c o sv svc crc [Hin|[]]. discriminate Hin.
Qed.

Lemma size_value_compressed_when_handed_over_witness :
  ∃ db' s evs chunk_final crc32,
    PutChunkValidSize 0%nat tt key_k value_a32 0 32
      (scripted_db false 100 kLZ4Compression healthy) = (db', Returns s)
    ∧ calls db' = calls (scripted_db false 100 kLZ4Compression healthy) ++ evs
    ∧ In (CallWbPutChunk key_k chunk_final 0 32 10 crc32) evs
    ∧ ThreadStorage.get 0%nat (ts_compression_enabled_ db') = 1
    ∧ Compressor.size_compressed 0%nat (compressor_ db') = 10.
Proof.
  eexists _, _, _, _, _.
  split; [reflexivity|]. split; [reflexivity|].
  split; [right; left; reflexivity|].
  pose proof (size_value_compressed_when_handed_over
                (scripted_db false 100 kLZ4Compression healthy)
                0%nat tt key_k value_a32 0 32 _ _ _ _ _ _ _ _ _
                eq_refl eq_refl (or_intror (or_introl eq_refl))) as Hsvc.
  split; [reflexivity|]. exact (eq_sym Hsvc).
Defined.

Lemma bounds_check_or_dispatch_witness :
  is_closed_ (scripted_db false 100 kNoCompression healthy) = false
  ∧ se_FileSystemStatus healthy = (healthy, OK)
  ∧ IsOK OK = true
  ∧ ChooseFraming 0%nat value_abcdefg 0 7 false true
      (called CallSeFileSystemStatus healthy
         (scripted_db false 100 kNoCompression healthy))
    = (with_ts_offset (ThreadStorage.put 0%nat 0)
         (with_ts_compression_enabled (ThreadStorage.put 0%nat 1)
            (called CallSeFileSystemStatus healthy
               (scripted_db false 100 kNoCompression healthy))),
       inr (0, value_abcdefg))
  ∧ FinalCompressedSize 0%nat
      (chunk_after_framing 0%nat value_abcdefg false true
         (called CallSeFileSystemStatus healthy
            (scripted_db false 100 kNoCompression healthy)))
      false true 0
      (with_ts_offset (ThreadStorage.put 0%nat 0)
         (with_ts_compression_enabled (ThreadStorage.put 0%nat 1)
            (called CallSeFileSystemStatus healthy
               (scripted_db false 100 kNoCompression healthy))))
    = Some 0
  ∧ u64_add 0 (size value_abcdefg) ≤ u64_add 7 0
  ∧ ∃ db' s crc32,
      PutChunkValidSize 0%nat tt key_k value_abcdefg 0 7
        (scripted_db false 100 kNoCompression healthy) = (db', Returns s)
      ∧ calls db'
        = [CallSeFileSystemStatus;
           CallWbPutChunk key_k value_abcdefg 0 7 0 crc32].
Proof.
  split; [reflexivity|]. split; [reflexivity|]. split; [reflexivity|].
  split; [reflexivity|]. split; [reflexivity|].
  assert (u64_add 0 (size value_abcdefg) ≤ u64_add 7 0) as Hle
    by (vm_compute; discriminate).
  split; [exact Hle|].
  pose proof (bounds_check_or_dispatch (ReadOptions := unit)
                (scripted_db false 100 kNoCompression healthy) 0%nat tt key_k
                value_abcdefg 0 7 healthy OK) as Hcheck.
  destruct (Hcheck _ 0 value_abcdefg 0 eq_refl eq_refl eq_refl eq_refl eq_refl)
    as (db' & s & Hput & _ & Hdispatch).
  destruct (Hdispatch Hle) as (crc & _ & Hcalls).
  exists db', s, crc. split; [exact Hput|exact Hcalls].
Defined.


Lemma fallback_is_kept_witness :
  ThreadStorage.get 0%nat
    (ts_compression_enabled_ (scripted_db false 4 kLZ4Compression healthy)) = 0
  ∧ Forall (λ c, cc_tid c = 0%nat → cc_offset_chunk c ≠ 0)
      [mkChunkCall 0%nat tt key_k value_abcdefg 4 11;
       mkChunkCall 1%nat tt key_k value_a32 0 32]
  ∧ ThreadStorage.get 0%nat
      (ts_compression_enabled_
         (run_calls
            (take 2 [mkChunkCall 0%nat tt key_k value_abcdefg 4 11;
                     mkChunkCall 1%nat tt key_k value_a32 0 32])
            (scripted_db false 4 kLZ4Compression healthy))) = 0.
Proof.
  assert (Forall (λ c : ChunkCall, cc_tid c = 0%nat → cc_offset_chunk c ≠ 0)
            [mkChunkCall 0%nat tt key_k value_abcdefg 4 11;
             mkChunkCall 1%nat tt key_k value_a32 0 32]) as Hcalls.
  { repeat constructor; simpl; intros; discriminate. }
  split; [reflexivity|]. split; [exact Hcalls|].
  exact (fallback_is_kept (ReadOptions := unit)
           (scripted_db false 4 kLZ4Compression healthy) 0%nat
           _ eq_refl Hcalls 2%nat).
Defined.


(** * Further properties of the handle *)

Section MoreProperties.
Context {World ReadOptions WriteOptions : Type}.
Context `{!WriteBuffer World ReadOptions WriteOptions}.
Context `{!StorageEngine World ReadOptions}.
Context `{!Codec}.

Implicit Types (db : KingDB World) (key chunk : ByteArray) (s : Status).
Implicit Types (tid : nat) (offset_chunk size_value : Z).

(** ** The checksum stream *)

Lemma streamed_reset tid (c : gmap nat (list byte)) :
  CRC32.streamed tid (CRC32.ResetThreadLocalStorage tid c) = [].
Proof.
  unfold CRC32.streamed, CRC32.ResetThreadLocalStorage.
  by rewrite lookup_insert_eq.
Qed.

Lemma streamed_stream tid bs (c : gmap nat (list byte)) :
  CRC32.streamed tid (CRC32.stream tid bs c) = CRC32.streamed tid c ++ bs.
Proof. unfold CRC32.streamed at 1, CRC32.stream. by rewrite lookup_insert_eq. Qed.

(** ** Delete *)

(** X1: on an open handle [Delete] asks the engine for the file-system
    status first.  A status that is not OK is returned and the write buffer
    is not called; otherwise the write buffer's [Delete] is called for the
    key and its status is returned. *)
Theorem Delete_checks_filesystem_first
    db (write_options : WriteOptions) key w s0 :
  is_closed_ db = false →
  se_FileSystemStatus (world db) = (w, s0) →
  (IsOK s0 = false →
     Delete write_options key db = (called CallSeFileSystemStatus w db, s0))
  ∧ (IsOK s0 = true →
     ∀ w' s', wb_Delete write_options key w = (w', s') →
     Delete write_options key db
       = (called (CallWbDelete key) w' (called CallSeFileSystemStatus w db), s')).
Proof.
  intros Hopen Hfs. unfold Delete. rewrite Hopen, Hfs. split.
  - by intros ->.
  - intros -> w' s' Hwb. simpl. by rewrite Hwb.
Qed.

(** ** Writers do not disturb each other *)

Lemma ChooseFraming_other_threads db tid' tid chunk offset_chunk size_value
    (do_compression is_first_chunk : bool) db1 r :
  ChooseFraming tid' chunk offset_chunk size_value do_compression
    is_first_chunk db = (db1, r) →
  tid' ≠ tid →
  ts_compression_enabled_ db1 !! tid = ts_compression_enabled_ db !! tid
  ∧ ts_offset_ db1 !! tid = ts_offset_ db !! tid
  ∧ compressor_ db1 !! tid = compressor_ db !! tid.
Proof.
  intros Hcf Hne.
  unfold ChooseFraming, DisableCompressionIfOverBudget, Compressor.Compress,
    Compressor.AdjustCompressedSize, Compressor.ResetThreadLocalStorage,
    ThreadStorage.put in Hcf.
  destruct (lz_frame (bytes chunk)) as [s out].
  repeat match type of Hcf with
         | context [if ?b then _ else _] => destruct b
         | context [let '(_, _) := ?p in _] => destruct p
         end;
  simplify_eq; simpl; rewrite ?lookup_insert_ne by done; done.
Qed.

(** A call of [PutChunkValidSize] by one thread leaves what the
    thread-local storages hold for every other thread as it was: the
    compression flag, the fallback offset, the compressor's running size
    and the checksum stream. *)
Theorem PutChunkValidSize_other_threads_untouched
    db tid' tid (write_options : WriteOptions) key chunk offset_chunk size_value :
  tid' ≠ tid →
  ∀ db' (r : Outcome Status),
  PutChunkValidSize tid' write_options key chunk offset_chunk size_value db
    = (db', r) →
  ts_compression_enabled_ db' !! tid = ts_compression_enabled_ db !! tid
  ∧ ts_offset_ db' !! tid = ts_offset_ db !! tid
  ∧ compressor_ db' !! tid = compressor_ db !! tid
  ∧ crc32_ db' !! tid = crc32_ db !! tid.
Proof.
  intros Hne db' r'. unfold PutChunkValidSize.
  destruct (is_closed_ db); [intros; by simplify_eq|].
  destruct (se_FileSystemStatus (world db)) as [w s0].
  destruct (IsOK s0); simpl; [|intros; by simplify_eq].
  destruct (ChooseFraming _ _ _ _ _ _ _) as [db1 r] eqn:Hcf.
  pose proof (ChooseFraming_frame _ _ _ _ _ _ _ _ _ Hcf)
    as (_ & _ & _ & Hcrc & _).
  apply (ChooseFraming_other_threads _ _ tid) in Hcf as (Hflag & Hoff & Hcomp);
    [|done].
  simpl in *.
  destruct r as [s1|[occ cf]]; [intros; simplify_eq; by rewrite Hcrc|].
  destruct (FinalCompressedSize _ _ _ _ _ _);
    [|intros; simplify_eq; by rewrite Hcrc].
  unfold CRC32.stream, CRC32.ResetThreadLocalStorage.
  destruct (_ >? _); [|destruct (wb_PutChunk _ _ _ _ _ _ _ _)];
    destruct (offset_chunk =? 0); intros; simplify_eq; simpl;
    rewrite ?lookup_insert_ne by done; rewrite ?Hcrc; done.
Qed.

(** ** What a status OK means *)


(** ** Chunks that are not compressed *)

(** X3: on an open handle with a healthy file system, a chunk that is not to
    be compressed (it is empty, or compression is off) on a thread whose
    compression flag is not 0 once a first chunk has set it, is checked
    against [size_value] without padding and handed to the write buffer as
    it is, at [offset_chunk], with 0 for [size_value_compressed].  The
    checksum stream takes the key first when the chunk is a first chunk,
    then the chunk, also when the bounds check then refuses the write; the
    checksum handed over is that of the stream for a last chunk and 0
    otherwise.  The compression flag is not cleared. *)
Theorem uncompressed_chunk_passes_through
    db tid (write_options : WriteOptions) key chunk offset_chunk size_value w s0 :
  is_closed_ db = false →
  se_FileSystemStatus (world db) = (w, s0) →
  IsOK s0 = true →
  (size chunk =? 0) || is_kNoCompression (compression_type (db_options_ db))
    = true →
  offset_chunk = 0 ∨ ThreadStorage.get tid (ts_compression_enabled_ db) ≠ 0 →
  let is_first_chunk := offset_chunk =? 0 in
  let streamed :=
    (if is_first_chunk then bytes key else CRC32.streamed tid (crc32_ db))
      ++ bytes chunk in
  let crc32 :=
    if u64_add (size chunk) offset_chunk =? size_value
    then crc32_of streamed else 0 in
  ∀ db' (r : Outcome Status),
  PutChunkValidSize tid write_options key chunk offset_chunk size_value db
    = (db', r) →
  ∃ s, r = Returns s
  ∧ CRC32.streamed tid (crc32_ db') = streamed
  ∧ ThreadStorage.get tid (ts_compression_enabled_ db')
    = (if is_first_chunk then 1
       else ThreadStorage.get tid (ts_compression_enabled_ db))
  ∧ (u64_add offset_chunk (size chunk) > u64_add size_value 0 →
     s = IOError "Prevented write to occur outside of the allocated memory."
     ∧ calls db' = calls db ++ [CallSeFileSystemStatus])
  ∧ (u64_add offset_chunk (size chunk) ≤ u64_add size_value 0 →
     wb_PutChunk write_options key chunk offset_chunk size_value 0 crc32 w
       = (world db', s)
     ∧ calls db' = calls db ++
         [CallSeFileSystemStatus;
          CallWbPutChunk key chunk offset_chunk size_value 0 crc32]).
Proof.
  intros Hopen Hfs Hok Hplain Hflag is_first_chunk streamed crc32 db' r.
  unfold PutChunkValidSize, ChooseFraming, FinalCompressedSize.
  rewrite Hopen, Hfs, Hok. simpl. rewrite Hplain. simpl.
  fold is_first_chunk.
  assert ((ThreadStorage.get tid
             (ts_compression_enabled_
                (if is_first_chunk
                 then with_ts_offset (ThreadStorage.put tid 0)
                        (with_ts_compression_enabled (ThreadStorage.put tid 1)
                           (called CallSeFileSystemStatus w db))
                 else called CallSeFileSystemStatus w db)) =? 0) = false)
    as Hnz.
  { apply Z.eqb_neq. subst is_first_chunk.
    destruct (Z.eqb_spec offset_chunk 0) as [_|Hne]; simpl.
    - by rewrite ts_get_put_eq.
    - by destruct Hflag. }
  rewrite Hnz. simpl.
  subst streamed crc32.
  destruct (Z.gtb_spec (u64_add offset_chunk (size chunk)) (u64_add size_value 0))
    as [Hgt|Hle].
  - destruct is_first_chunk; simpl; intros; simplify_eq; simpl;
      (eexists; split; [reflexivity|]);
      rewrite ?streamed_stream, ?streamed_reset, ?ts_get_put_eq;
      repeat split; try done; intros; lia.
  - destruct is_first_chunk; simpl; unfold CRC32.get;
      rewrite ?streamed_stream, ?streamed_reset;
      destruct (wb_PutChunk _ _ _ _ _ _ _ _) as [w' s'] eqn:Hwb;
      intros; simplify_eq; simpl;
      (eexists; split; [reflexivity|]);
      rewrite ?streamed_stream, ?streamed_reset, ?ts_get_put_eq;
      (split; [done|]); (split; [done|]); (split; [intros; lia|]);
      intros _; (split; [first [exact Hwb|done]|]); by rewrite <- app_assoc.
Qed.

(** ** Chunks written after the fallback *)

(** X4: on an open handle with a healthy file system, a chunk that continues
    an entry ([offset_chunk] is not 0) on a thread whose compression flag is
    0 is not compressed: it is handed to the write buffer as it is, at the
    offset kept in [ts_offset_] and not at [offset_chunk], and [ts_offset_]
    moves on by the size of the chunk, so that the next such chunk lands
    right behind it.  For a last chunk under compression the
    [size_value_compressed] handed over is that new [ts_offset_].  The flag
    and the compressor's running size stay as they are. *)
Theorem fallback_chunk_is_appended
    db tid (write_options : WriteOptions) key chunk offset_chunk size_value w s0 :
  is_closed_ db = false →
  se_FileSystemStatus (world db) = (w, s0) →
  IsOK s0 = true →
  offset_chunk ≠ 0 →
  ThreadStorage.get tid (ts_compression_enabled_ db) = 0 →
  let do_compression :=
    negb ((size chunk =? 0)
          || is_kNoCompression (compression_type (db_options_ db))) in
  let is_last_chunk := u64_add (size chunk) offset_chunk =? size_value in
  let offset_chunk_compressed := ThreadStorage.get tid (ts_offset_ db) in
  let size_value_compressed :=
    if do_compression && is_last_chunk
    then u64_add offset_chunk_compressed (size chunk) else 0 in
  let size_padding :=
    if do_compression then CalculatePaddingSize size_value else 0 in
  let crc32 :=
    if is_last_chunk
    then crc32_of (CRC32.streamed tid (crc32_ db) ++ bytes chunk) else 0 in
  ∀ db' (r : Outcome Status),
  PutChunkValidSize tid write_options key chunk offset_chunk size_value db
    = (db', r) →
  ∃ s, r = Returns s
  ∧ ThreadStorage.get tid (ts_offset_ db')
    = u64_add offset_chunk_compressed (size chunk)
  ∧ ThreadStorage.get tid (ts_compression_enabled_ db') = 0
  ∧ compressor_ db' = compressor_ db
  ∧ (u64_add offset_chunk_compressed (size chunk)
       > u64_add size_value size_padding →
     s = IOError "Prevented write to occur outside of the allocated memory."
     ∧ calls db' = calls db ++ [CallSeFileSystemStatus])
  ∧ (u64_add offset_chunk_compressed (size chunk)
       ≤ u64_add size_value size_padding →
     wb_PutChunk write_options key chunk offset_chunk_compressed size_value
       size_value_compressed crc32 w = (world db', s)
     ∧ calls db' = calls db ++
         [CallSeFileSystemStatus;
          CallWbPutChunk key chunk offset_chunk_compressed size_value
            size_value_compressed crc32]).
Proof.
  intros Hopen Hfs Hok Hcont Hzero do_compression is_last_chunk occ svc
    size_padding crc32 db' r.
  unfold PutChunkValidSize, ChooseFraming, FinalCompressedSize,
    chunk_after_framing.
  rewrite Hopen, Hfs, Hok. simpl.
  assert ((offset_chunk =? 0) = false) as -> by by apply Z.eqb_neq.
  cbn. rewrite Hzero. cbn. rewrite Hzero. cbn. rewrite orb_true_r. cbn.
  rewrite ?Hzero. cbn.
  fold do_compression is_last_chunk occ size_padding.
  subst svc crc32.
  assert ((if do_compression && is_last_chunk
           then Some (u64_add occ (size chunk)) else Some 0)
          = Some (if do_compression && is_last_chunk
                  then u64_add occ (size chunk) else 0)) as ->
    by by destruct (do_compression && is_last_chunk).
  destruct (Z.gtb_spec (u64_add occ (size chunk)) (u64_add size_value size_padding))
    as [Hgt|Hle].
  - intros; simplify_eq; simpl. eexists; split; [reflexivity|].
    rewrite ts_get_put_eq.
    repeat split; try done; intros; lia.
  - unfold CRC32.get. rewrite streamed_stream.
    destruct (wb_PutChunk _ _ _ _ _ _ _ _) as [w' s'] eqn:Hwb.
    intros; simplify_eq; simpl. eexists; split; [reflexivity|].
    rewrite ts_get_put_eq.
    (split; [done|]); (split; [done|]); (split; [done|]);
      (split; [intros; lia|]).
    intros _. split; [first [exact Hwb|done]|]. by rewrite <- app_assoc.
Qed.

(** ** The compressed branch: failure and fallback on a last chunk *)

(** After the entry boot, a flag that was not 0 or a first chunk leaves the
    flag not 0. *)
Lemma flag_after_boot db tid offset_chunk :
  offset_chunk = 0 ∨ ThreadStorage.get tid (ts_compression_enabled_ db) ≠ 0 →
  (ThreadStorage.get tid
     (ts_compression_enabled_
        (if offset_chunk =? 0
         then with_ts_offset (ThreadStorage.put tid 0)
                (with_ts_compression_enabled (ThreadStorage.put tid 1) db)
         else db)) =? 0) = false.
Proof.
  intros Hflag. apply Z.eqb_neq.
  destruct (Z.eqb_spec offset_chunk 0) as [_|Hne]; simpl.
  - by rewrite ts_get_put_eq.
  - by destruct Hflag.
Qed.

(** X5: on an open handle with a healthy file system, when the codec fails
    on a chunk that is to be compressed, [PutChunkValidSize] returns the
    codec's status as it is; the write buffer is not called and the
    checksum stream is not touched, not even reset for a first chunk. *)
Theorem compressor_failure_is_returned
    db tid (write_options : WriteOptions) key chunk offset_chunk size_value
    w s0 s compressed :
  is_closed_ db = false →
  se_FileSystemStatus (world db) = (w, s0) →
  IsOK s0 = true →
  (size chunk =? 0) || is_kNoCompression (compression_type (db_options_ db))
    = false →
  offset_chunk = 0 ∨ ThreadStorage.get tid (ts_compression_enabled_ db) ≠ 0 →
  lz_frame (bytes chunk) = (s, compressed) →
  IsOK s = false →
  ∀ db' (r : Outcome Status),
  PutChunkValidSize tid write_options key chunk offset_chunk size_value db
    = (db', r) →
  r = Returns s
  ∧ crc32_ db' = crc32_ db
  ∧ world db' = w
  ∧ calls db' = calls db ++ [CallSeFileSystemStatus].
Proof.
  intros Hopen Hfs Hok Hdo Hflag Hlz Hbad db' r.
  pose proof (flag_after_boot (called CallSeFileSystemStatus w db) tid
                offset_chunk Hflag) as Hnz.
  unfold PutChunkValidSize, ChooseFraming, Compressor.Compress,
    DisableCompressionIfOverBudget.
  rewrite Hopen, Hfs, Hok. cbn. rewrite Hdo. cbn.
  cbn in Hnz. rewrite Hnz. cbn. rewrite Hnz. cbn. rewrite Hlz. cbn.
  destruct (over_budget _ _ _ _ _); cbn; rewrite Hbad; cbn;
    destruct (offset_chunk =? 0); intros; by simplify_eq.
Qed.

(** X6: on an open handle with a healthy file system, when the budget test
    sends the last chunk of an entry to the fallback, the call never gets to
    the write buffer.  The compressed branch has stored 0 in
    [ts_compression_enabled_] and has deleted the chunk (line 162), so line
    166 takes the else branch and line 169 reads [chunk->size()] through the
    deleted chunk.  Up to there the engine's [FileSystemStatus] is the only
    call made and the checksum stream has not been touched. *)
Theorem fallback_on_last_chunk_reads_deleted_chunk
    db tid (write_options : WriteOptions) key chunk offset_chunk size_value
    w s0 s compressed :
  is_closed_ db = false →
  se_FileSystemStatus (world db) = (w, s0) →
  IsOK s0 = true →
  (size chunk =? 0) || is_kNoCompression (compression_type (db_options_ db))
    = false →
  offset_chunk = 0 ∨ ThreadStorage.get tid (ts_compression_enabled_ db) ≠ 0 →
  lz_frame (bytes chunk) = (s, compressed) →
  IsOK s = true →
  u64_add (size chunk) offset_chunk = size_value →
  let is_first_chunk := offset_chunk =? 0 in
  let offset_chunk_compressed :=
    Compressor.size_compressed tid
      (if is_first_chunk
       then Compressor.ResetThreadLocalStorage tid (compressor_ db)
       else compressor_ db) in
  over_budget chunk offset_chunk size_value offset_chunk_compressed
    (wrap64 (Z.of_nat (length compressed))) = true →
  chunk_after_framing tid chunk true is_first_chunk
    (called CallSeFileSystemStatus w db) = None
  ∧ ∀ db' (r : Outcome Status),
    PutChunkValidSize tid write_options key chunk offset_chunk size_value db
      = (db', r) →
    r = UseAfterFree
    ∧ ThreadStorage.get tid (ts_compression_enabled_ db') = 0
    ∧ crc32_ db' = crc32_ db
    ∧ world db' = w
    ∧ calls db' = calls db ++ [CallSeFileSystemStatus].
Proof.
  intros Hopen Hfs Hok Hdo Hflag Hlz Hgood Hlast is_first_chunk occ Hover.
  pose proof (flag_after_boot (called CallSeFileSystemStatus w db) tid
                offset_chunk Hflag) as Hnz.
  assert (chunk_after_framing tid chunk true is_first_chunk
            (called CallSeFileSystemStatus w db) = None) as Hleft.
  { unfold chunk_after_framing. fold is_first_chunk in Hnz.
    by rewrite Hnz. }
  split; [exact Hleft|]. intros db' r.
  unfold PutChunkValidSize. rewrite Hopen, Hfs, Hok. cbn. rewrite Hdo. cbn.
  fold is_first_chunk. rewrite Hleft.
  unfold ChooseFraming, Compressor.Compress, DisableCompressionIfOverBudget,
    FinalCompressedSize.
  cbn. fold is_first_chunk in Hnz |- *. cbn in Hnz.
  rewrite Hnz. cbn. rewrite Hnz. cbn. rewrite Hlz. cbn.
  assert (Compressor.size_compressed tid
            (compressor_
               (if is_first_chunk
                then with_compressor (Compressor.ResetThreadLocalStorage tid)
                       (if is_first_chunk
                        then with_ts_offset (ThreadStorage.put tid 0)
                               (with_ts_compression_enabled
                                  (ThreadStorage.put tid 1)
                                  (called CallSeFileSystemStatus w db))
                        else called CallSeFileSystemStatus w db)
                else (if is_first_chunk
                      then with_ts_offset (ThreadStorage.put tid 0)
                             (with_ts_compression_enabled
                                (ThreadStorage.put tid 1)
                                (called CallSeFileSystemStatus w db))
                      else called CallSeFileSystemStatus w db))) = occ) as Hocc
    by (subst occ; by destruct is_first_chunk).
  rewrite Hocc, Hover. cbn. rewrite Hgood. cbn. rewrite ts_get_put_eq. cbn.
  rewrite Hlast, Z.eqb_refl. cbn.
  intros Hput. injection Hput as Hdb Hr. subst db' r. cbn.
  rewrite ts_get_put_eq.
  split; [done|]. split; [done|].
  by destruct is_first_chunk.
Qed.

(** ** PutChunk on the chunks of an oversize value *)

(** X7: on an open handle, [PutChunk] of an empty chunk for a value above
    the maximum chunk size returns OK at once: the loop body never runs, so
    the file system is not checked, nothing reaches the write buffer and the
    handle stays as it was. *)
Theorem PutChunk_empty_chunk_of_oversize_value
    db tid (write_options : WriteOptions) key chunk offset_chunk size_value
    (fuel : nat) :
  is_closed_ db = false →
  storage__maximum_chunk_size (db_options_ db) < size_value →
  size chunk = 0 →
  PutChunk (S fuel) tid write_options key chunk offset_chunk size_value db
    = Some (db, Returns OK).
Proof.
  intros Hopen Hbig Hempty. unfold PutChunk. rewrite Hopen.
  assert ((size_value <=? storage__maximum_chunk_size (db_options_ db)) = false)
    as -> by (apply Z.leb_gt; lia).
  rewrite Hempty. reflexivity.
Qed.

(** X8: on an open handle, [PutChunk] of a chunk that is not empty and not
    above the maximum chunk size, for a value that is above it, makes one
    submission to [PutChunkValidSize] and returns what it returns; the
    chunk is submitted with its own offset set to 0. *)
Theorem PutChunk_chunk_within_maximum
    db tid (write_options : WriteOptions) key chunk offset_chunk size_value
    (fuel : nat) :
  is_closed_ db = false →
  storage__maximum_chunk_size (db_options_ db) < size_value →
  0 < size chunk ≤ storage__maximum_chunk_size (db_options_ db) →
  storage__maximum_chunk_size (db_options_ db) < 2 ^ 64 →
  PutChunk (S (S fuel)) tid write_options key chunk offset_chunk size_value db
    = Some (PutChunkValidSize tid write_options key (set_offset 0 chunk)
              (u64_add offset_chunk 0) size_value db).
Proof.
  intros Hopen Hbig Hsize Hmax. unfold PutChunk. rewrite Hopen.
  assert ((size_value <=? storage__maximum_chunk_size (db_options_ db)) = false)
    as -> by (apply Z.leb_gt; lia).
  cbn [PutChunk_loop].
  assert ((0 <? size chunk) = true) as -> by (apply Z.ltb_lt; lia).
  assert (u64_add 0 (storage__maximum_chunk_size (db_options_ db))
          = storage__maximum_chunk_size (db_options_ db)) as ->
    by (unfold u64_add; apply wrap64_small; lia).
  assert ((storage__maximum_chunk_size (db_options_ db) <? size chunk) = false)
    as Hend by (apply Z.ltb_ge; lia).
  rewrite Hend.
  destruct (PutChunkValidSize _ _ _ _ _ _ _) as [db1 [s1| |]]; [|done..].
  by destruct (IsOK s1).
Qed.

(** ** Put without compression *)

(** X9: on an open handle with a healthy file system and compression off,
    [Put] of a value not above the maximum chunk size never trips the bounds
    check: it hands the write buffer the key and the value once, at offset
    0, with the size of the value, 0 for [size_value_compressed] and the
    checksum of the key followed by the value, and returns the write
    buffer's status. *)
Theorem Put_small_value_without_compression
    db tid (write_options : WriteOptions) key chunk w s0 (fuel : nat) :
  is_closed_ db = false →
  se_FileSystemStatus (world db) = (w, s0) →
  IsOK s0 = true →
  compression_type (db_options_ db) = kNoCompression →
  size chunk ≤ storage__maximum_chunk_size (db_options_ db) →
  ∀ w' s',
  wb_PutChunk write_options key chunk 0 (size chunk) 0
    (crc32_of (bytes key ++ bytes chunk)) w = (w', s') →
  ∃ db',
    Put fuel tid write_options key chunk db = Some (db', Returns s')
    ∧ world db' = w'
    ∧ CRC32.streamed tid (crc32_ db') = bytes key ++ bytes chunk
    ∧ calls db' = calls db ++
        [CallSeFileSystemStatus;
         CallWbPutChunk key chunk 0 (size chunk) 0
           (crc32_of (bytes key ++ bytes chunk))].
Proof.
  intros Hopen Hfs Hok Hnone Hsmall w' s' Hwb.
  unfold Put, PutChunk. rewrite Hopen.
  assert ((size chunk <=? storage__maximum_chunk_size (db_options_ db)) = true)
    as -> by (apply Z.leb_le; lia).
  unfold PutChunkValidSize, ChooseFraming, FinalCompressedSize.
  rewrite Hopen, Hfs, Hok. cbn. rewrite Hnone. cbn.
  rewrite orb_true_r. cbn. rewrite ts_get_put_eq. cbn.
  pose proof (wrap64_range (size_ chunk - offset_ chunk)) as Hrange.
  fold (u64_sub (size_ chunk) (offset_ chunk)) in Hrange.
  fold (size chunk) in Hrange.
  assert (u64_add 0 (size chunk) = size chunk) as ->
    by (unfold u64_add; apply wrap64_small; lia).
  assert (u64_add (size chunk) 0 = size chunk) as ->
    by (unfold u64_add; rewrite Z.add_0_r; apply wrap64_small; lia).
  assert ((size chunk >? size chunk) = false) as ->
    by (destruct (Z.gtb_spec (size chunk) (size chunk)); [lia|done]).
  rewrite Z.eqb_refl. unfold CRC32.get.
  rewrite !streamed_stream, streamed_reset. cbn. rewrite Hwb.
  eexists. split; [reflexivity|]. cbn.
  rewrite !streamed_stream, streamed_reset. cbn.
  repeat split. by rewrite <- app_assoc.
Qed.

(** With compression off, a chunk that [PutChunkValidSize] acknowledges with
    OK went to the write buffer as it is and into the checksum stream. *)
Lemma plain_chunk_ok
    db tid (write_options : WriteOptions) key chunk offset_chunk size_value
    db1 s1 :
  compression_type (db_options_ db) = kNoCompression →
  offset_chunk = 0 ∨ ThreadStorage.get tid (ts_compression_enabled_ db) = 1 →
  PutChunkValidSize tid write_options key chunk offset_chunk size_value db
    = (db1, Returns s1) →
  IsOK s1 = true →
  db_options_ db1 = db_options_ db
  ∧ ThreadStorage.get tid (ts_compression_enabled_ db1) = 1
  ∧ CRC32.streamed tid (crc32_ db1)
    = (if offset_chunk =? 0 then bytes key
       else CRC32.streamed tid (crc32_ db)) ++ bytes chunk
  ∧ calls db1 = calls db ++
      [CallSeFileSystemStatus;
       CallWbPutChunk key chunk offset_chunk size_value 0
         (if u64_add (size chunk) offset_chunk =? size_value
          then crc32_of
                 ((if offset_chunk =? 0 then bytes key
                   else CRC32.streamed tid (crc32_ db)) ++ bytes chunk)
          else 0)].
Proof.
  intros Hnone Hflag Hput Hs1.
  assert (offset_chunk = 0
          ∨ ThreadStorage.get tid (ts_compression_enabled_ db) ≠ 0) as Hflag'
    by (destruct Hflag as [?|Hone]; [by left|right; rewrite Hone; done]).
  unfold PutChunkValidSize, ChooseFraming, FinalCompressedSize in Hput.
  destruct (is_closed_ db); [simplify_eq; discriminate Hs1|].
  destruct (se_FileSystemStatus (world db)) as [w s0].
  destruct (IsOK s0) eqn:Hs0; cbn in Hput;
    [|simplify_eq; rewrite Hs0 in Hs1; discriminate Hs1].
  pose proof (flag_after_boot (called CallSeFileSystemStatus w db) tid
                offset_chunk Hflag') as Hnz.
  cbn in Hnz. rewrite Hnone in Hput. cbn in Hput.
  rewrite orb_true_r in Hput. cbn in Hput. rewrite Hnz in Hput. cbn in Hput.
  unfold CRC32.get in Hput.
  destruct (_ >? _);
    [destruct (offset_chunk =? 0); simplify_eq; discriminate Hs1|].
  destruct (Z.eqb_spec offset_chunk 0) as [Hfirst|Hcont]; cbn in Hput;
    rewrite ?streamed_stream, ?streamed_reset in Hput; cbn in Hput;
    destruct (wb_PutChunk _ _ _ _ _ _ _ _) as [w' s'];
    simplify_eq; cbn;
    rewrite ?streamed_stream, ?streamed_reset, ?ts_get_put_eq; cbn.
  - repeat split. by rewrite <- app_assoc.
  - destruct Hflag as [?|Hone]; [done|].
    repeat split; [done|]. by rewrite <- app_assoc.
Qed.

Lemma size_SimpleByteArray (p : list byte) (n : Z) :
  0 ≤ n < 2 ^ 64 → size (SimpleByteArray p n) = n.
Proof.
  intros Hn. unfold size, SimpleByteArray, u64_sub. simpl.
  rewrite Z.sub_0_r. by apply wrap64_small.
Qed.

Lemma data_SimpleByteArray (p : list byte) (n : Z) :
  data (SimpleByteArray p n) = p.
Proof. unfold data, SimpleByteArray. simpl. apply drop_0. Qed.

Section PlainSplit.
Variables (tid : nat) (write_options : WriteOptions) (key chunk : ByteArray).
Variable maximum : Z.
Hypothesis maximum_pos : 0 < maximum.
Hypothesis chunk_oversize : maximum < size chunk.
Hypothesis no_overflow : size chunk + maximum < 2 ^ 64.
Hypothesis unshifted : offset_ chunk = 0.

Lemma bytes_up_to_window (i : nat) :
  Z.of_nat (S i) * maximum ≤ size chunk →
  take (i * Z.to_nat maximum) (bytes chunk)
    ++ bytes (window chunk maximum 0 i).1
  = take (S i * Z.to_nat maximum) (bytes chunk).
Proof.
  intros Hin. unfold bytes at 2, window. cbn [fst].
  rewrite size_SimpleByteArray, data_SimpleByteArray by lia.
  unfold bytes. rewrite !take_take.
  rewrite !Nat.min_l by nia.
  rewrite Z2Nat.inj_mul, Nat2Z.id by lia.
  rewrite take_take_drop. f_equal. lia.
Qed.

Lemma bytes_up_to_last :
  take ((sub_chunk_count chunk maximum - 1) * Z.to_nat maximum) (bytes chunk)
    ++ bytes (set_offset
                (Z.of_nat (sub_chunk_count chunk maximum - 1) * maximum) chunk)
  = bytes chunk.
Proof.
  pose proof (sub_chunk_count_bounds (size chunk) maximum
                maximum_pos chunk_oversize) as (Hq2 & Hlow & Hhigh).
  assert (Z.of_nat (sub_chunk_count chunk maximum - 1)
          = (size chunk + maximum - 1) / maximum - 1) as Hn1
    by (unfold sub_chunk_count; lia).
  unfold bytes at 2.
  rewrite size_set_offset by (rewrite ?Hn1; try done; nia).
  unfold bytes, data. simpl. rewrite unshifted. simpl. rewrite drop_0.
  rewrite take_take, Nat.min_l by nia.
  rewrite Z2Nat.inj_mul, Nat2Z.id by lia.
  rewrite take_take_drop. f_equal. nia.
Qed.

Lemma plain_submissions (k i : nat) s0 db db' s :
  compression_type (db_options_ db) = kNoCompression →
  (i + k = sub_chunk_count chunk maximum - 1)%nat →
  i = 0%nat
  ∨ (ThreadStorage.get tid (ts_compression_enabled_ db) = 1
     ∧ CRC32.streamed tid (crc32_ db)
       = bytes key ++ take (i * Z.to_nat maximum) (bytes chunk)) →
  submit_in_order
    (λ c o, PutChunkValidSize tid write_options key c o (size chunk))
    (map (window chunk maximum 0) (seq i k)
     ++ [(set_offset (Z.of_nat (sub_chunk_count chunk maximum - 1) * maximum)
            chunk,
          u64_add 0 (Z.of_nat (sub_chunk_count chunk maximum - 1) * maximum))])
    s0 db = (db', Returns s) →
  IsOK s = true →
  CRC32.streamed tid (crc32_ db') = bytes key ++ bytes chunk
  ∧ calls db' = calls db ++
      concat
        (map (λ j : nat,
                [CallSeFileSystemStatus;
                 CallWbPutChunk key (window chunk maximum 0 j).1
                   (Z.of_nat j * maximum) (size chunk) 0 0])
             (seq i k))
      ++ [CallSeFileSystemStatus;
          CallWbPutChunk key
            (set_offset
               (Z.of_nat (sub_chunk_count chunk maximum - 1) * maximum) chunk)
            (Z.of_nat (sub_chunk_count chunk maximum - 1) * maximum)
            (size chunk) 0 (crc32_of (bytes key ++ bytes chunk))].
Proof.
  pose proof (sub_chunk_count_bounds (size chunk) maximum
                maximum_pos chunk_oversize) as (Hq2 & Hlow & Hhigh).
  assert (Z.of_nat (sub_chunk_count chunk maximum)
          = (size chunk + maximum - 1) / maximum) as Hn
    by (unfold sub_chunk_count; lia).
  revert i s0 db. induction k as [|k IH]; intros i s0 db Hnone Hik Hinv Hrun Hok.
  - cbn [seq map app submit_in_order concat] in Hrun |- *.
    assert (Z.of_nat i = (size chunk + maximum - 1) / maximum - 1) as Hi by lia.
    assert (0 < Z.of_nat i * maximum < size chunk) as Hoff by nia.
    assert (i ≠ 0%nat) as Hpos by lia.
    pose proof bytes_up_to_last as Hlast_bytes.
    replace (sub_chunk_count chunk maximum - 1)%nat with i in * by lia.
    assert (u64_add 0 (Z.of_nat i * maximum) = Z.of_nat i * maximum) as Ho
      by (unfold u64_add; rewrite Z.add_0_l; apply wrap64_small; lia).
    rewrite Ho in Hrun.
    destruct (PutChunkValidSize _ _ _ _ _ _ _) as [db1 [s1| |]] eqn:Hput;
      [|discriminate Hrun..].
    destruct (IsOK s1) eqn:Hs1; simpl in Hrun;
      [|simplify_eq; rewrite Hs1 in Hok; discriminate Hok].
    simplify_eq.
    destruct Hinv as [->|[Hflag Hstream]]; [done|].
    apply plain_chunk_ok in Hput as (_ & _ & Hstreamed & Hcalls);
      [|done|by right|done].
    assert ((Z.of_nat i * maximum =? 0) = false) as Hne
      by (apply Z.eqb_neq; lia).
    rewrite Hne in Hstreamed, Hcalls.
    rewrite Hstream, <- app_assoc in Hstreamed, Hcalls.
    rewrite Hlast_bytes in Hstreamed, Hcalls.
    split; [done|]. rewrite Hcalls. f_equal. f_equal. f_equal.
    rewrite size_set_offset by (try done; lia).
    unfold u64_add. rewrite wrap64_small by lia.
    replace (size chunk - Z.of_nat i * maximum + Z.of_nat i * maximum)
      with (size chunk) by lia.
    by rewrite Z.eqb_refl.
  - cbn [seq map app submit_in_order concat] in Hrun |- *.
    assert (Z.of_nat (S i) * maximum < size chunk) as Hnext by nia.
    unfold window at 1 in Hrun.
    assert (u64_add 0 (Z.of_nat i * maximum) = Z.of_nat i * maximum) as Ho
      by (unfold u64_add; rewrite Z.add_0_l; apply wrap64_small; nia).
    rewrite Ho in Hrun.
    change (SimpleByteArray
              (drop (Z.to_nat (Z.of_nat i * maximum)) (data chunk)) maximum)
      with ((window chunk maximum 0 i).1) in Hrun.
    destruct (PutChunkValidSize _ _ _ _ _ _ _) as [db1 [s1| |]] eqn:Hput;
      [|discriminate Hrun..].
    destruct (IsOK s1) eqn:Hs1; simpl in Hrun;
      [|simplify_eq; rewrite Hs1 in Hok; discriminate Hok].
    apply plain_chunk_ok in Hput as (Hopt & Hflag1 & Hstreamed & Hcalls);
      [|done| |done].
    2:{ destruct Hinv as [->|[Hflag _]]; [by left|by right]. }
    assert (size (window chunk maximum 0 i).1 = maximum) as Hsize
      by (apply size_SimpleByteArray; lia).
    rewrite Hsize in Hcalls.
    assert ((u64_add maximum (Z.of_nat i * maximum) =? size chunk) = false)
      as Hnot_last.
    { apply Z.eqb_neq. unfold u64_add. rewrite wrap64_small; nia. }
    rewrite Hnot_last in Hcalls.
    assert (CRC32.streamed tid (crc32_ db1)
            = bytes key ++ take (S i * Z.to_nat maximum) (bytes chunk))
      as Hstream1.
    { rewrite Hstreamed, <- (bytes_up_to_window i) by lia.
      destruct (decide (i = 0%nat)) as [->|Hi0].
      - by rewrite Z.eqb_refl.
      - destruct Hinv as [?|[_ Hstream]]; [done|].
        assert ((Z.of_nat i * maximum =? 0) = false) as ->
          by (apply Z.eqb_neq; nia).
        by rewrite Hstream, <- app_assoc. }
    apply IH in Hrun as (Hfinal & Hcalls');
      [|by rewrite Hopt|lia|by right|done].
    split; [done|]. rewrite Hcalls', Hcalls. rewrite <- !app_assoc. done.
Qed.

End PlainSplit.
Lemma PutChunk_loop_more_fuel (fuel fuel' : nat) tid
    (write_options : WriteOptions) key chunk
    (size_chunk offset_chunk size_value offset : Z) s db r :
  (fuel ≤ fuel')%nat →
  PutChunk_loop fuel tid write_options key chunk size_chunk offset_chunk
    size_value offset s db = Some r →
  PutChunk_loop fuel' tid write_options key chunk size_chunk offset_chunk
    size_value offset s db = Some r.
Proof.
  revert fuel' chunk offset s db.
  induction fuel as [|fuel IH]; intros fuel' chunk offset s db Hle Hrun;
    [discriminate Hrun|].
  destruct fuel' as [|fuel']; [lia|].
  cbn [PutChunk_loop] in Hrun |- *.
  destruct (offset <? size_chunk); [|done].
  destruct (u64_add offset _ <? size chunk);
    (destruct (PutChunkValidSize _ _ _ _ _ _ _) as [db1 [s1| |]]; [|done..]);
    (destruct (IsOK s1); simpl in *; [|done]);
    (apply IH; [lia|done]).
Qed.

(** X10: with compression off, a positive maximum chunk size and a value
    above it (given with no offset of its own, and with no overflow of
    [uint64_t] in the loop counter), whenever [Put] returns OK it has asked
    exactly this of its collaborators: for each window of the value the
    file-system status and a [PutChunk] of the write buffer at the window's
    offset with 0 for the compressed size and for the checksum, then the
    same for the rest of the value, this time with the checksum of the key
    followed by the whole value.  The checksum stream then holds the key
    followed by the value. *)
Theorem Put_oversize_value_without_compression
    db tid (write_options : WriteOptions) key chunk (fuel : nat) db' s :
  let maximum := storage__maximum_chunk_size (db_options_ db) in
  compression_type (db_options_ db) = kNoCompression →
  0 < maximum →
  maximum < size chunk →
  size chunk + maximum < 2 ^ 64 →
  offset_ chunk = 0 →
  Put fuel tid write_options key chunk db = Some (db', Returns s) →
  IsOK s = true →
  CRC32.streamed tid (crc32_ db') = bytes key ++ bytes chunk
  ∧ calls db' = calls db ++
      plain_put_calls key chunk maximum (crc32_of (bytes key ++ bytes chunk)).
Proof.
  intros maximum Hnone Hpos Hbig Hover Hzero Hput Hok.
  unfold Put, PutChunk in Hput.
  destruct (is_closed_ db); [simplify_eq; discriminate Hok|].
  fold maximum in Hput.
  assert ((size chunk <=? maximum) = false) as Hsplit
    by (apply Z.leb_gt; lia).
  rewrite Hsplit in Hput.
  apply (PutChunk_loop_more_fuel _
           (fuel + S (S (sub_chunk_count chunk maximum)))) in Hput; [|lia].
  rewrite (PutChunk_loop_submits tid write_options key chunk 0 (size chunk)
             maximum Hpos Hbig Hover (sub_chunk_count chunk maximum - 1) 0)
    in Hput; [|done|lia|lia].
  injection Hput as Hput.
  apply (plain_submissions tid write_options key chunk maximum
           Hpos Hbig Hover Hzero) in Hput; [|done|lia|by left|done].
  unfold plain_put_calls. by rewrite ?app_assoc in *.
Qed.

(** ** A first chunk starts from nothing *)

(** X11: on an open handle with a healthy file system, what a first chunk
    ([offset_chunk] is 0) does, when the codec does not fail on it and the
    call returns, is the same whatever the thread-local storages held
    before.  From any other thread-local state the call returns too, and
    these are the same: the status, the calls made and the state of the
    collaborators, and for the calling thread the compression flag, the
    fallback offset and the checksum stream afterwards; the compressor's
    running size too when the chunk is to be compressed. *)
Theorem first_chunk_starts_clean
    db (flags offsets counts : gmap nat Z) (sums : gmap nat (list byte))
    tid (write_options : WriteOptions) key chunk size_value w s0 :
  is_closed_ db = false →
  se_FileSystemStatus (world db) = (w, s0) →
  IsOK s0 = true →
  (size chunk =? 0) || is_kNoCompression (compression_type (db_options_ db))
    = true
  ∨ IsOK (lz_frame (bytes chunk)).1 = true →
  let other :=
    mkKingDB (is_closed_ db) (db_options_ db) (dbname_ db)
      flags offsets counts sums (world db) (calls db) in
  ∀ db1 s1 db2 (r2 : Outcome Status),
  PutChunkValidSize tid write_options key chunk 0 size_value db
    = (db1, Returns s1) →
  PutChunkValidSize tid write_options key chunk 0 size_value other = (db2, r2) →
  r2 = Returns s1
  ∧ world db2 = world db1
  ∧ calls db2 = calls db1
  ∧ ThreadStorage.get tid (ts_compression_enabled_ db2)
    = ThreadStorage.get tid (ts_compression_enabled_ db1)
  ∧ ThreadStorage.get tid (ts_offset_ db2)
    = ThreadStorage.get tid (ts_offset_ db1)
  ∧ CRC32.streamed tid (crc32_ db2) = CRC32.streamed tid (crc32_ db1)
  ∧ ((size chunk =? 0)
     || is_kNoCompression (compression_type (db_options_ db)) = false →
     Compressor.size_compressed tid (compressor_ db2)
     = Compressor.size_compressed tid (compressor_ db1)).
Proof.
  intros Hopen Hfs Hok Hcodec other db1 s1 db2 r2.
  unfold PutChunkValidSize, ChooseFraming, DisableCompressionIfOverBudget,
    FinalCompressedSize, chunk_after_framing, Compressor.Compress, Compressor.AdjustCompressedSize,
    Compressor.ResetThreadLocalStorage, Compressor.size_compressed, CRC32.get.
  cbn. rewrite Hopen, Hfs, Hok. cbn.
  rewrite !ts_get_put_eq. cbn.
  destruct ((size chunk =? 0)
            || is_kNoCompression (compression_type (db_options_ db))); cbn.
  - rewrite !streamed_stream, !streamed_reset.
    destruct (_ >? _);
      [|destruct (wb_PutChunk _ _ _ _ _ _ _ _) as [w' s'] eqn:Hwb];
      intros; simplify_eq; cbn;
      rewrite ?streamed_stream, ?streamed_reset, ?ts_get_put_eq;
      repeat split; done.
  - destruct Hcodec as [?|Hcodec]; [done|].
    destruct (lz_frame (bytes chunk)) as [s out]. cbn in Hcodec |- *.
    rewrite Hcodec, !ts_get_put_eq.
    destruct (over_budget _ _ _ _ _); cbn; rewrite ?ts_get_put_eq; cbn;
      destruct (u64_add (size chunk) 0 =? size_value); cbn;
      rewrite ?ts_get_put_eq; cbn;
      rewrite ?streamed_stream, ?streamed_reset, ?ts_get_put_eq;
      try (destruct (_ >? _);
           [|destruct (wb_PutChunk _ _ _ _ _ _ _ _) as [w' s'] eqn:Hwb]);
      intros; simplify_eq; cbn;
      rewrite ?streamed_stream, ?streamed_reset, ?ts_get_put_eq;
      repeat split; done.
Qed.

(** ** What the checksum covers *)

(** X12: whenever [PutChunkValidSize] hands a chunk to the write buffer, it
    passes the caller's key and [size_value]; the checksum stream of the
    calling thread has taken the key first when the chunk is a first chunk,
    and then exactly the bytes handed over; and the checksum handed over is
    that of the stream as it now stands for a last chunk and 0 for any
    other chunk. *)
Theorem checksum_covers_what_is_handed_over
    db tid (write_options : WriteOptions) key chunk offset_chunk size_value db'
    (r : Outcome Status)
    evs k chunk_final offset_chunk_compressed sv size_value_compressed crc32 :
  PutChunkValidSize tid write_options key chunk offset_chunk size_value db
    = (db', r) →
  calls db' = calls db ++ evs →
  In (CallWbPutChunk k chunk_final offset_chunk_compressed sv
        size_value_compressed crc32) evs →
  k = key
  ∧ sv = size_value
  ∧ CRC32.streamed tid (crc32_ db')
    = (if offset_chunk =? 0 then bytes key
       else CRC32.streamed tid (crc32_ db)) ++ bytes chunk_final
  ∧ crc32
    = if u64_add (size chunk) offset_chunk =? size_value
      then crc32_of (CRC32.streamed tid (crc32_ db')) else 0.
Proof.
  unfold PutChunkValidSize. intros Hput Hevs Hin.
  assert (∀ l : list Call, calls db ++ l = calls db ++ evs → l = evs) as Hinv
    by (intros l; apply app_inv_head).
  assert (∀ c : Call,
            [c] = evs →
            (∀ a b c' d e f, c ≠ CallWbPutChunk a b c' d e f) → False)
    as Hone.
  { intros c <- Hc. destruct Hin as [Hin|[]]. by eapply Hc. }
  destruct (is_closed_ db).
  { injection Hput as Hdb Hs. subst db' r.
    rewrite <- (app_nil_r (calls db)) in Hevs at 1.
    apply Hinv in Hevs. subst evs. destruct Hin. }
  destruct (se_FileSystemStatus (world db)) as [w s0].
  destruct (IsOK s0); simpl in Hput.
  2:{ injection Hput as Hdb Hs. subst db' r. simpl in Hevs.
      apply Hinv in Hevs. by destruct (Hone _ Hevs). }
  destruct (ChooseFraming _ _ _ _ _ _ _) as [db1 fr] eqn:Hcf.
  apply ChooseFraming_frame in Hcf as (_ & _ & _ & Hcrc & _ & Hcalls).
  simpl in Hcrc, Hcalls.
  destruct fr as [s1|[occ cf]].
  { injection Hput as Hdb Hs. subst db' r. rewrite Hcalls in Hevs.
    apply Hinv in Hevs. by destruct (Hone _ Hevs). }
  destruct (FinalCompressedSize _ _ _ _ _ _).
  2:{ injection Hput as Hdb Hs. subst db' r. rewrite Hcalls in Hevs.
      apply Hinv in Hevs. by destruct (Hone _ Hevs). }
  unfold CRC32.get in Hput.
  destruct (_ >? _).
  { destruct (offset_chunk =? 0); injection Hput as Hdb Hs; subst db' r;
      simpl in Hevs; rewrite Hcalls in Hevs; apply Hinv in Hevs;
      by destruct (Hone _ Hevs). }
  destruct (wb_PutChunk _ _ _ _ _ _ _ _) as [w' s'].
  destruct (offset_chunk =? 0); injection Hput as Hdb Hs; subst db' r;
    simpl in Hevs |- *; rewrite Hcalls, <- app_assoc in Hevs;
    apply Hinv in Hevs; subst evs;
    (destruct Hin as [Hin|[Hin|[]]]; [discriminate Hin|]);
    injection Hin as <- <- <- <- <- <-;
    rewrite ?streamed_stream, ?streamed_reset, ?Hcrc; done.
Qed.

(** ** A compressed frame that overshoots *)

Lemma wrap64_negative x : - 2 ^ 64 ≤ x < 0 → wrap64 x = x + 2 ^ 64.
Proof.
  intros Hx. unfold wrap64.
  replace x with (x + 2 ^ 64 + -1 * 2 ^ 64) at 1 by lia.
  rewrite Z_mod_plus_full. apply Z.mod_small. lia.
Qed.

(** The compression flag of a thread holds 0 or 1 only: a call of
    [PutChunkValidSize], by that thread or another, stores nothing else. *)
Lemma ChooseFraming_flag_values db tid' tid chunk offset_chunk size_value
    (do_compression is_first_chunk : bool) db1 r :
  ChooseFraming tid' chunk offset_chunk size_value do_compression
    is_first_chunk db = (db1, r) →
  ThreadStorage.get tid (ts_compression_enabled_ db) = 0
  ∨ ThreadStorage.get tid (ts_compression_enabled_ db) = 1 →
  ThreadStorage.get tid (ts_compression_enabled_ db1) = 0
  ∨ ThreadStorage.get tid (ts_compression_enabled_ db1) = 1.
Proof.
  intros Hcf Hflag.
  unfold ChooseFraming, DisableCompressionIfOverBudget in Hcf.
  destruct (decide (tid' = tid)) as [->|Hne];
    repeat match type of Hcf with
           | context [if ?b then _ else _] => destruct b
           | context [let '(_, _) := ?p in _] => destruct p
           end;
    simplify_eq; simpl;
    rewrite ?ts_get_put_eq; rewrite ?ts_get_put_ne by done; auto.
Qed.

Lemma PutChunkValidSize_flag_values
    db tid' tid (write_options : WriteOptions) key chunk offset_chunk size_value :
  ThreadStorage.get tid (ts_compression_enabled_ db) = 0
  ∨ ThreadStorage.get tid (ts_compression_enabled_ db) = 1 →
  let db' :=
    (PutChunkValidSize tid' write_options key chunk offset_chunk size_value
       db).1 in
  ThreadStorage.get tid (ts_compression_enabled_ db') = 0
  ∨ ThreadStorage.get tid (ts_compression_enabled_ db') = 1.
Proof.
  intros Hflag. unfold PutChunkValidSize.
  destruct (is_closed_ db); [done|].
  destruct (se_FileSystemStatus (world db)) as [w s0].
  destruct (IsOK s0); simpl; [|done].
  destruct (ChooseFraming _ _ _ _ _ _ _) as [db1 r] eqn:Hcf.
  apply (ChooseFraming_flag_values _ _ tid) in Hcf; [|exact Hflag].
  destruct r as [s1|[occ cf]]; [done|].
  destruct (FinalCompressedSize _ _ _ _ _ _); [|done].
  destruct (_ >? _); [by destruct (offset_chunk =? 0)|].
  destruct (wb_PutChunk _ _ _ _ _ _ _ _).
  by destruct (offset_chunk =? 0).
Qed.

(** X13: on an open handle with a healthy file system and all sizes far
    from 2^64, in the compressed branch (a first chunk, or a compression
    flag of 1), a compressed frame that ends beyond the allocation,
    [offset_chunk_compressed + size_compressed > size_value +
    padding(size_value)], is not caught by the budget test: the unsigned
    subtraction [space_left - size_compressed] wraps, the frame is kept and
    the compression flag is not cleared; the bounds check then fails the
    call with IOError and the write buffer is not called. *)
Theorem frame_beyond_allocation_is_refused
    db tid (write_options : WriteOptions) key chunk offset_chunk size_value
    w s0 s compressed :
  is_closed_ db = false →
  se_FileSystemStatus (world db) = (w, s0) →
  IsOK s0 = true →
  (size chunk =? 0) || is_kNoCompression (compression_type (db_options_ db))
    = false →
  offset_chunk = 0 ∨ ThreadStorage.get tid (ts_compression_enabled_ db) = 1 →
  lz_frame (bytes chunk) = (s, compressed) →
  IsOK s = true →
  let is_first_chunk := offset_chunk =? 0 in
  let offset_chunk_compressed :=
    Compressor.size_compressed tid
      (if is_first_chunk
       then Compressor.ResetThreadLocalStorage tid (compressor_ db)
       else compressor_ db) in
  let size_compressed := Z.of_nat (length compressed) in
  let allocated := size_value + CalculatePaddingSize size_value in
  0 ≤ offset_chunk →
  offset_chunk + size chunk ≤ size_value →
  0 ≤ CalculatePaddingSize size_value →
  0 ≤ size_frame_header →
  0 ≤ offset_chunk_compressed ≤ allocated →
  allocated < offset_chunk_compressed + size_compressed →
  allocated + size_frame_header + offset_chunk_compressed + size_compressed
    < 2 ^ 64 →
  over_budget chunk offset_chunk size_value offset_chunk_compressed
    size_compressed = false
  ∧ ∀ db' (r : Outcome Status),
    PutChunkValidSize tid write_options key chunk offset_chunk size_value db
      = (db', r) →
    r = Returns
          (IOError "Prevented write to occur outside of the allocated memory.")
    ∧ calls db' = calls db ++ [CallSeFileSystemStatus]
    ∧ ThreadStorage.get tid (ts_compression_enabled_ db')
      = (if is_first_chunk then 1
         else ThreadStorage.get tid (ts_compression_enabled_ db)).
Proof.
  intros Hopen Hfs Hok Hdo Hflag Hlz Hgood is_first_chunk occ n allocated
    Hoff Hin Hpad Hheader Hocc Hbeyond Hfar.
  pose proof (wrap64_range (size_ chunk - offset_ chunk)) as Hsize.
  fold (u64_sub (size_ chunk) (offset_ chunk)) in Hsize.
  fold (size chunk) in Hsize.
  assert (0 ≤ n) as Hn by (unfold n; lia).
  assert (over_budget chunk offset_chunk size_value occ n = false) as Hover.
  { unfold over_budget, u64_add, u64_sub.
    rewrite (wrap64_small (size_value - offset_chunk)) by lia.
    rewrite (wrap64_small (size_value - offset_chunk - size chunk)) by lia.
    rewrite (wrap64_small (size_value - offset_chunk - size chunk
                           + size_frame_header)) by lia.
    rewrite (wrap64_small (size_value + CalculatePaddingSize size_value))
      by lia.
    rewrite (wrap64_small (size_value + CalculatePaddingSize size_value - occ))
      by lia.
    rewrite wrap64_negative by lia.
    destruct (Z.gtb_spec
                (size_value - offset_chunk - size chunk + size_frame_header)
                (size_value + CalculatePaddingSize size_value - occ - n
                 + 2 ^ 64)); [lia|done]. }
  split; [exact Hover|].
  intros db' r.
  assert (ThreadStorage.get tid
            (ts_compression_enabled_
               (if offset_chunk =? 0
                then with_ts_offset (ThreadStorage.put tid 0)
                       (with_ts_compression_enabled (ThreadStorage.put tid 1)
                          (called CallSeFileSystemStatus w db))
                else called CallSeFileSystemStatus w db)) = 1) as Hone.
  { destruct (Z.eqb_spec offset_chunk 0) as [_|Hne]; simpl.
    - by rewrite ts_get_put_eq.
    - by destruct Hflag. }
  assert ((ThreadStorage.get tid
             (ts_compression_enabled_
                (if offset_chunk =? 0
                 then with_ts_offset (ThreadStorage.put tid 0)
                        (with_ts_compression_enabled (ThreadStorage.put tid 1)
                           (called CallSeFileSystemStatus w db))
                 else called CallSeFileSystemStatus w db)) =? 0) = false)
    as Hnz by by rewrite Hone.
  unfold PutChunkValidSize, ChooseFraming, Compressor.Compress,
    DisableCompressionIfOverBudget, FinalCompressedSize.
  rewrite Hopen, Hfs, Hok. cbn. rewrite Hdo. cbn.
  cbn in Hnz. rewrite Hnz. cbn. rewrite Hnz. cbn. rewrite Hlz. cbn.
  fold is_first_chunk in occ |- *. fold n.
  rewrite (wrap64_small n) by lia.
  assert (Compressor.size_compressed tid
            (compressor_
               (if is_first_chunk
                then with_compressor (Compressor.ResetThreadLocalStorage tid)
                       (if is_first_chunk
                        then with_ts_offset (ThreadStorage.put tid 0)
                               (with_ts_compression_enabled
                                  (ThreadStorage.put tid 1)
                                  (called CallSeFileSystemStatus w db))
                        else called CallSeFileSystemStatus w db)
                else (if is_first_chunk
                      then with_ts_offset (ThreadStorage.put tid 0)
                             (with_ts_compression_enabled
                                (ThreadStorage.put tid 1)
                                (called CallSeFileSystemStatus w db))
                      else called CallSeFileSystemStatus w db))) = occ) as Hocc'
    by (subst occ; by destruct is_first_chunk).
  rewrite Hocc', Hover. cbn. rewrite Hgood. cbn.
  assert (ThreadStorage.get tid
            (ts_compression_enabled_
               (if is_first_chunk
                then with_ts_offset (ThreadStorage.put tid 0)
                       (with_ts_compression_enabled (ThreadStorage.put tid 1)
                          (called CallSeFileSystemStatus w db))
                else called CallSeFileSystemStatus w db)) = 1) as Hone'
    by exact Hone.
  assert (ThreadStorage.get tid
            (ts_compression_enabled_
               (if is_first_chunk
                then with_compressor (Compressor.ResetThreadLocalStorage tid)
                       (if is_first_chunk
                        then with_ts_offset (ThreadStorage.put tid 0)
                               (with_ts_compression_enabled
                                  (ThreadStorage.put tid 1)
                                  (called CallSeFileSystemStatus w db))
                        else called CallSeFileSystemStatus w db)
                else (if is_first_chunk
                      then with_ts_offset (ThreadStorage.put tid 0)
                             (with_ts_compression_enabled
                                (ThreadStorage.put tid 1)
                                (called CallSeFileSystemStatus w db))
                      else called CallSeFileSystemStatus w db))) = 1) as Hkept
    by (revert Hone'; by destruct is_first_chunk).
  rewrite Hkept. cbn.
  assert (size (SharedAllocatedByteArray compressed n) = n) as Hframe.
  { unfold size, SharedAllocatedByteArray, u64_sub. simpl.
    rewrite Z.sub_0_r. apply wrap64_small. lia. }
  rewrite Hframe.
  assert ((u64_add occ n
             >? u64_add size_value (CalculatePaddingSize size_value)) = true)
    as ->.
  { unfold u64_add. rewrite !wrap64_small by lia.
    destruct (Z.gtb_spec (occ + n)
                (size_value + CalculatePaddingSize size_value)); [done|lia]. }
  destruct (u64_add (size chunk) offset_chunk =? size_value); cbn;
    destruct is_first_chunk; intros Hput; injection Hput as <- <-; cbn;
    rewrite ?ts_get_put_eq; repeat split; done.
Qed.

End MoreProperties.

(** ** The further properties on the concrete collaborators *)

Lemma Delete_checks_filesystem_first_witness :
  is_closed_ (scripted_db false 4 kNoCompression bad_disk) = false
  ∧ se_FileSystemStatus bad_disk = (bad_disk, IOError "disk")
  ∧ IsOK (IOError "disk") = false
  ∧ Delete tt key_k (scripted_db false 4 kNoCompression bad_disk)
    = (called CallSeFileSystemStatus bad_disk
         (scripted_db false 4 kNoCompression bad_disk),
       IOError "disk").
Proof.
  pose proof (Delete_checks_filesystem_first (ReadOptions := unit)
                (scripted_db false 4 kNoCompression bad_disk) tt key_k
                bad_disk (IOError "disk")) as Hdelete.
  destruct (Hdelete eq_refl eq_refl) as [Hbad _].
  split; [reflexivity|]. split; [reflexivity|]. split; [reflexivity|].
  exact (Hbad eq_refl).
Defined.

Lemma PutChunkValidSize_other_threads_untouched_witness :
  1%nat ≠ 0%nat
  ∧ ∃ db' s,
      PutChunkValidSize 1%nat tt key_k value_a32 0 32
        (scripted_db_with 100 kLZ4Compression {[0%nat := 0]} {[0%nat := 12]}
           {[0%nat := 5]} {[0%nat := [x6b]]} healthy) = (db', s)
      ∧ ts_compression_enabled_ db' !! 0%nat = Some 0
      ∧ ts_offset_ db' !! 0%nat = Some 12
      ∧ compressor_ db' !! 0%nat = Some 5
      ∧ crc32_ db' !! 0%nat = Some [x6b].
Proof.
  assert (1%nat ≠ 0%nat) as Hne by discriminate.
  split; [exact Hne|]. eexists _, _. split; [reflexivity|].
  exact (PutChunkValidSize_other_threads_untouched (ReadOptions := unit)
           (scripted_db_with 100 kLZ4Compression {[0%nat := 0]}
              {[0%nat := 12]} {[0%nat := 5]} {[0%nat := [x6b]]} healthy)
           1%nat 0%nat tt key_k value_a32 0 32 Hne _ _ eq_refl).
Defined.


Lemma uncompressed_chunk_passes_through_witness :
  is_closed_ (scripted_db false 100 kNoCompression healthy) = false
  ∧ se_FileSystemStatus healthy = (healthy, OK)
  ∧ IsOK OK = true
  ∧ (size value_abcdefg =? 0) || is_kNoCompression kNoCompression = true
  ∧ u64_add 0 (size value_abcdefg) ≤ u64_add 7 0
  ∧ ∃ db' s,
      PutChunkValidSize 0%nat tt key_k value_abcdefg 0 7
        (scripted_db false 100 kNoCompression healthy) = (db', Returns s)
      ∧ CRC32.streamed 0%nat (crc32_ db') = bytes key_k ++ bytes value_abcdefg
      ∧ calls db'
        = [CallSeFileSystemStatus; CallWbPutChunk key_k value_abcdefg 0 7 0 8].
Proof.
  assert (u64_add 0 (size value_abcdefg) ≤ u64_add 7 0) as Hle
    by (vm_compute; discriminate).
  split; [reflexivity|]. split; [reflexivity|]. split; [reflexivity|].
  split; [reflexivity|]. split; [exact Hle|].
  eexists _, _. split; [reflexivity|].
  pose proof (uncompressed_chunk_passes_through (ReadOptions := unit)
                (scripted_db false 100 kNoCompression healthy) 0%nat tt key_k
                value_abcdefg 0 7 healthy OK) as Hpass.
  destruct (Hpass eq_refl eq_refl eq_refl eq_refl (or_introl eq_refl)
              _ _ eq_refl) as (s & Hs & Hstream & _ & _ & Hhanded).
  injection Hs as <-.
  split; [exact Hstream|]. exact (proj2 (Hhanded Hle)).
Defined.

Lemma fallback_chunk_is_appended_witness :
  is_closed_ (scripted_db_with 100 kLZ4Compression {[0%nat := 0]}
                {[0%nat := 12]} ∅ ∅ healthy) = false
  ∧ se_FileSystemStatus healthy = (healthy, OK)
  ∧ IsOK OK = true
  ∧ 4 ≠ 0
  ∧ ThreadStorage.get 0%nat ({[0%nat := 0]} : gmap nat Z) = 0
  ∧ ∃ db' s crc32,
      PutChunkValidSize 0%nat tt key_k value_abcdefg 4 11
        (scripted_db_with 100 kLZ4Compression {[0%nat := 0]}
           {[0%nat := 12]} ∅ ∅ healthy) = (db', Returns s)
      ∧ ThreadStorage.get 0%nat (ts_offset_ db') = 19
      ∧ calls db'
        = [CallSeFileSystemStatus;
           CallWbPutChunk key_k value_abcdefg 12 11 19 crc32].
Proof.
  assert (4 ≠ 0) as Hne by discriminate.
  split; [reflexivity|]. split; [reflexivity|]. split; [reflexivity|].
  split; [exact Hne|]. split; [reflexivity|].
  eexists _, _, _. split; [reflexivity|].
  pose proof (fallback_chunk_is_appended (ReadOptions := unit)
                (scripted_db_with 100 kLZ4Compression {[0%nat := 0]}
                   {[0%nat := 12]} ∅ ∅ healthy) 0%nat tt key_k
                value_abcdefg 4 11 healthy OK) as Happend.
  destruct (Happend eq_refl eq_refl eq_refl Hne eq_refl _ _ eq_refl)
    as (s & Hs & Hoffset & _ & _ & _ & Hhanded).
  injection Hs as <-.
  split; [exact Hoffset|].
  refine (proj2 (Hhanded _)). vm_compute. discriminate.
Defined.

Lemma compressor_failure_is_returned_witness :
  is_closed_ (scripted_db false 100 kLZ4Compression healthy) = false
  ∧ se_FileSystemStatus healthy = (healthy, OK)
  ∧ IsOK OK = true
  ∧ (size value_a32 =? 0) || is_kNoCompression kLZ4Compression = false
  ∧ lz_frame (Codec := failing_codec) (bytes value_a32) = (IOError "codec", [])
  ∧ IsOK (IOError "codec") = false
  ∧ ∃ db',
      PutChunkValidSize (H := failing_codec) 0%nat tt key_k value_a32 0 32
        (scripted_db false 100 kLZ4Compression healthy)
        = (db', Returns (IOError "codec"))
      ∧ crc32_ db' = ∅
      ∧ calls db' = [CallSeFileSystemStatus].
Proof.
  split; [reflexivity|]. split; [reflexivity|]. split; [reflexivity|].
  split; [reflexivity|]. split; [reflexivity|]. split; [reflexivity|].
  eexists. split; [reflexivity|].
  pose proof (compressor_failure_is_returned (ReadOptions := unit)
                (H := failing_codec)
                (scripted_db false 100 kLZ4Compression healthy) 0%nat tt
                key_k value_a32 0 32 healthy OK (IOError "codec") [])
    as Hfails.
  destruct (Hfails eq_refl eq_refl eq_refl eq_refl (or_introl eq_refl)
              eq_refl eq_refl _ _ eq_refl) as (_ & Hcrc & _ & Hcalls).
  split; [exact Hcrc|exact Hcalls].
Defined.

Lemma fallback_on_last_chunk_reads_deleted_chunk_witness :
  is_closed_ (scripted_db false 100 kLZ4Compression healthy) = false
  ∧ se_FileSystemStatus healthy = (healthy, OK)
  ∧ (size value_aaaabbb =? 0) || is_kNoCompression kLZ4Compression = false
  ∧ IsOK (lz_frame (bytes value_aaaabbb)).1 = true
  ∧ u64_add (size value_aaaabbb) 0 = 7
  ∧ over_budget (StorageEngine0 := scripted_engine) value_aaaabbb 0 7 0 12
    = true
  ∧ ∃ db',
      PutChunkValidSize 0%nat tt key_k value_aaaabbb 0 7
        (scripted_db false 100 kLZ4Compression healthy) = (db', UseAfterFree)
      ∧ crc32_ db' = ∅
      ∧ calls db' = [CallSeFileSystemStatus].
Proof.
  split; [reflexivity|]. split; [reflexivity|]. split; [reflexivity|].
  split; [reflexivity|]. split; [reflexivity|]. split; [reflexivity|].
  eexists. split; [reflexivity|].
  pose proof (fallback_on_last_chunk_reads_deleted_chunk (ReadOptions := unit)
                (scripted_db false 100 kLZ4Compression healthy) 0%nat tt
                key_k value_aaaabbb 0 7 healthy OK) as Hcrash.
  destruct (Hcrash _ _ eq_refl eq_refl eq_refl eq_refl (or_introl eq_refl)
              eq_refl eq_refl eq_refl eq_refl) as (_ & Hstops).
  destruct (Hstops _ _ eq_refl) as (_ & _ & Hcrc & _ & Hcalls).
  split; [exact Hcrc|exact Hcalls].
Defined.

Lemma PutChunk_empty_chunk_of_oversize_value_witness :
  is_closed_ (scripted_db false 4 kNoCompression healthy) = false
  ∧ 4 < 7
  ∧ size value_empty = 0
  ∧ PutChunk 1 0%nat tt key_k value_empty 7 7
      (scripted_db false 4 kNoCompression healthy)
    = Some (scripted_db false 4 kNoCompression healthy, Returns OK).
Proof.
  split; [reflexivity|]. split; [reflexivity|]. split; [reflexivity|].
  exact (PutChunk_empty_chunk_of_oversize_value (ReadOptions := unit)
           (scripted_db false 4 kNoCompression healthy) 0%nat tt key_k
           value_empty 7 7 0%nat eq_refl eq_refl eq_refl).
Defined.

Lemma PutChunk_chunk_within_maximum_witness :
  is_closed_ (scripted_db false 4 kNoCompression healthy) = false
  ∧ 4 < 7
  ∧ 0 < size value_abc ≤ 4
  ∧ 4 < 2 ^ 64
  ∧ PutChunk 2 0%nat tt key_k value_abc 0 7
      (scripted_db false 4 kNoCompression healthy)
    = Some (PutChunkValidSize 0%nat tt key_k (set_offset 0 value_abc)
              (u64_add 0 0) 7 (scripted_db false 4 kNoCompression healthy)).
Proof.
  assert (0 < size value_abc ≤ 4) as Hsize
    by (split; [reflexivity|vm_compute; discriminate]).
  split; [reflexivity|]. split; [reflexivity|]. split; [exact Hsize|].
  split; [reflexivity|].
  exact (PutChunk_chunk_within_maximum (ReadOptions := unit)
           (scripted_db false 4 kNoCompression healthy) 0%nat tt key_k
           value_abc 0 7 0%nat eq_refl eq_refl Hsize eq_refl).
Defined.

Lemma Put_small_value_without_compression_witness :
  is_closed_ (scripted_db false 100 kNoCompression healthy) = false
  ∧ se_FileSystemStatus healthy = (healthy, OK)
  ∧ size value_abcdefg ≤ 100
  ∧ ∃ db',
      Put 0 0%nat tt key_k value_abcdefg
        (scripted_db false 100 kNoCompression healthy)
        = Some (db', Returns OK)
      ∧ calls db'
        = [CallSeFileSystemStatus; CallWbPutChunk key_k value_abcdefg 0 7 0 8].
Proof.
  assert (size value_abcdefg ≤ 100) as Hsmall by (vm_compute; discriminate).
  split; [reflexivity|]. split; [reflexivity|]. split; [exact Hsmall|].
  pose proof (Put_small_value_without_compression (ReadOptions := unit)
                (scripted_db false 100 kNoCompression healthy) 0%nat tt key_k
                value_abcdefg healthy OK 0%nat) as Hput.
  destruct (Hput eq_refl eq_refl eq_refl eq_refl Hsmall healthy OK eq_refl)
    as (db' & Hrun & _ & _ & Hcalls).
  exists db'. split; [exact Hrun|exact Hcalls].
Defined.

Lemma Put_oversize_value_without_compression_witness :
  0 < 4 ∧ 4 < size value_abcdefg ∧ size value_abcdefg + 4 < 2 ^ 64
  ∧ offset_ value_abcdefg = 0
  ∧ ∃ db',
      Put 3 0%nat tt key_k value_abcdefg
        (scripted_db false 4 kNoCompression healthy)
        = Some (db', Returns OK)
      ∧ CRC32.streamed 0%nat (crc32_ db')
        = bytes key_k ++ bytes value_abcdefg
      ∧ calls db'
        = [CallSeFileSystemStatus;
           CallWbPutChunk key_k (window value_abcdefg 4 0 0).1 0 7 0 0;
           CallSeFileSystemStatus;
           CallWbPutChunk key_k (set_offset 4 value_abcdefg) 4 7 0 8].
Proof.
  split; [reflexivity|]. split; [reflexivity|]. split; [reflexivity|].
  split; [reflexivity|].
  eexists. split; [reflexivity|].
  exact (Put_oversize_value_without_compression (ReadOptions := unit)
           (scripted_db false 4 kNoCompression healthy) 0%nat tt key_k
           value_abcdefg 3%nat _ OK eq_refl eq_refl eq_refl eq_refl eq_refl
           eq_refl eq_refl).
Defined.

Lemma first_chunk_starts_clean_witness :
  is_closed_ (scripted_db false 100 kLZ4Compression healthy) = false
  ∧ se_FileSystemStatus healthy = (healthy, OK)
  ∧ IsOK (lz_frame (bytes value_a32)).1 = true
  ∧ ∃ db1 db2 s,
      PutChunkValidSize 0%nat tt key_k value_a32 0 32
        (scripted_db false 100 kLZ4Compression healthy) = (db1, Returns s)
      ∧ PutChunkValidSize 0%nat tt key_k value_a32 0 32
          (scripted_db_with 100 kLZ4Compression {[0%nat := 0]}
             {[0%nat := 12]} {[0%nat := 5]} {[0%nat := [x6b]]} healthy)
        = (db2, Returns s)
      ∧ calls db2 = calls db1
      ∧ ThreadStorage.get 0%nat (ts_compression_enabled_ db2)
        = ThreadStorage.get 0%nat (ts_compression_enabled_ db1)
      ∧ CRC32.streamed 0%nat (crc32_ db2) = CRC32.streamed 0%nat (crc32_ db1).
Proof.
  split; [reflexivity|]. split; [reflexivity|]. split; [reflexivity|].
  eexists _, _, _. split; [reflexivity|]. split; [reflexivity|].
  pose proof (first_chunk_starts_clean (ReadOptions := unit)
                (scripted_db false 100 kLZ4Compression healthy)
                {[0%nat := 0]} {[0%nat := 12]} {[0%nat := 5]}
                {[0%nat := [x6b]]} 0%nat tt key_k value_a32 32 healthy OK)
    as Hclean.
  destruct (Hclean eq_refl eq_refl eq_refl (or_intror eq_refl)
              _ _ _ _ eq_refl eq_refl)
    as (_ & _ & Hcalls & Hflag & _ & Hstream & _).
  split; [exact Hcalls|]. split; [exact Hflag|exact Hstream].
Defined.

Lemma checksum_covers_what_is_handed_over_witness :
  ∃ db' s evs chunk_final,
    PutChunkValidSize 0%nat tt key_k value_a32 0 32
      (scripted_db false 100 kLZ4Compression healthy) = (db', s)
    ∧ calls db' = calls (scripted_db false 100 kLZ4Compression healthy) ++ evs
    ∧ In (CallWbPutChunk key_k chunk_final 0 32 10 11) evs
    ∧ CRC32.streamed 0%nat (crc32_ db') = bytes key_k ++ bytes chunk_final
    ∧ 11 = crc32_of (CRC32.streamed 0%nat (crc32_ db')).
Proof.
  eexists _, _, _, _.
  split; [reflexivity|]. split; [reflexivity|].
  split; [right; left; reflexivity|].
  pose proof (checksum_covers_what_is_handed_over (ReadOptions := unit)
                (scripted_db false 100 kLZ4Compression healthy)
                0%nat tt key_k value_a32 0 32 _ _ _ _ _ _ _ _ _
                eq_refl eq_refl (or_intror (or_introl eq_refl)))
    as (_ & _ & Hstream & Hcrc).
  split; [exact Hstream|exact Hcrc].
Defined.

Lemma frame_beyond_allocation_is_refused_witness :
  is_closed_ (scripted_db false 100 kLZ4Compression healthy) = false
  ∧ se_FileSystemStatus healthy = (healthy, OK)
  ∧ (size value_abcdefg =? 0) || is_kNoCompression kLZ4Compression = false
  ∧ IsOK (lz_frame (bytes value_abcdefg)).1 = true
  ∧ Z.of_nat (length (lz_frame (bytes value_abcdefg)).2) = 22
  ∧ 0 + size value_abcdefg ≤ 7
  ∧ 7 + CalculatePaddingSize (StorageEngine := scripted_engine) 7 < 0 + 22
  ∧ ∃ db',
      PutChunkValidSize 0%nat tt key_k value_abcdefg 0 7
        (scripted_db false 100 kLZ4Compression healthy)
        = (db',
           Returns
             (IOError
                "Prevented write to occur outside of the allocated memory."))
      ∧ calls db' = [CallSeFileSystemStatus]
      ∧ ThreadStorage.get 0%nat (ts_compression_enabled_ db') = 1.
Proof.
  assert (0 + size value_abcdefg ≤ 7) as Hin by (vm_compute; discriminate).
  split; [reflexivity|]. split; [reflexivity|]. split; [reflexivity|].
  split; [reflexivity|]. split; [reflexivity|]. split; [exact Hin|].
  split; [reflexivity|].
  eexists. split; [reflexivity|].
  pose proof (frame_beyond_allocation_is_refused (ReadOptions := unit)
                (scripted_db false 100 kLZ4Compression healthy) 0%nat tt
                key_k value_abcdefg 0 7 healthy OK) as Hrefused.
  assert (0 ≤ 0) as Hzero by reflexivity.
  assert (0 ≤ 8) as Height by (vm_compute; discriminate).
  assert (0 ≤ 0 ≤ 15) as Hocc
    by (split; [reflexivity|vm_compute; discriminate]).
  destruct (Hrefused _ _ eq_refl eq_refl eq_refl eq_refl (or_introl eq_refl)
              eq_refl eq_refl Hzero Hin Height Height Hocc eq_refl eq_refl)
    as (_ & Hcall).
  destruct (Hcall _ _ eq_refl) as (_ & Hcalls & Hflag).
  split; [exact Hcalls|exact Hflag].
Defined.
